(** * Fishroom web handlers: posting, long polling and token admission

    A shallow embedding of [fishroom/web/handlers.py].  The handlers are
    Tornado request handlers: they mutate the handler object (status code,
    write buffer, [json_data]), talk to Redis and hand messages to the
    message bus.  They are modelled here as computations in a small
    state-and-exception monad over an explicit handler state.  The chat
    log and the text store read the logger's lists and are functions of
    the store; the message stream is a step function on a socket record. *)

From Stdlib Require Import NArith String Ascii List Bool Lia DecimalString.
From stdpp Require Import base option list gmap.
Import ListNotations.

Local Open Scope string_scope.
Local Open Scope list_scope.
Local Open Scope N_scope.

(** ** Python values *)

(** A Python [str] is a sequence of Unicode code points. *)
Abbreviation pystr := (list N).

(** Raw payloads (request bodies, Redis list entries) are byte strings. *)
Abbreviation wire := string.

(** A [str] literal of the source, written in ASCII. *)
Definition u (s : string) : pystr :=
  map N_of_ascii (list_ascii_of_string s).
Arguments u : simpl never.

(** What [json.loads] produces.  Numbers are restricted to integers. *)
#[warnings="-register-all"]
Inductive pyval : Type :=
| JNull
| JBool (b : bool)
| JNum (n : Z)
| JStr (s : pystr)
| JArr (l : list pyval)
| JObj (items : list (pystr * pyval)).

Definition pystr_eqb (a b : pystr) : bool := bool_decide (a = b).

(** Python truthiness: [bool(v)]. *)
Definition truthy (v : pyval) : bool :=
  match v with
  | JNull => false
  | JBool b => b
  | JNum n => negb (Z.eqb n 0)
  | JStr s => match s with [] => false | _ => true end
  | JArr l => match l with [] => false | _ => true end
  | JObj l => match l with [] => false | _ => true end
  end.

(** Lookup in a [dict] given as its item list. *)
Fixpoint assoc (k : pystr) (items : list (pystr * pyval)) : option pyval :=
  match items with
  | [] => None
  | (k', v) :: rest => if pystr_eqb k k' then Some v else assoc k rest
  end.

(** [v == s] for a [str] [s]: only an equal [str] compares equal. *)
Definition eq_str (v : pyval) (s : pystr) : bool :=
  match v with
  | JStr t => pystr_eqb t s
  | _ => false
  end.

(** ** Characters: [str.strip] and the pattern [^\w] *)

Definition in_range (lo hi c : N) : bool := (lo <=? c) && (c <=? hi).

(** [str.isspace] on one code point. *)
Definition isspace (c : N) : bool :=
  in_range 9 13 c || in_range 28 32 c
  || (c =? 133) || (c =? 160) || (c =? 5760)
  || in_range 8192 8202 c || (c =? 8232) || (c =? 8233)
  || (c =? 8239) || (c =? 8287) || (c =? 12288).

Fixpoint lstrip (s : pystr) : pystr :=
  match s with
  | [] => []
  | c :: rest => if isspace c then lstrip rest else s
  end.

Definition rstrip (s : pystr) : pystr := rev (lstrip (rev s)).

(** [s.strip()] *)
Definition strip (s : pystr) : pystr := rstrip (lstrip s).

(** [str.isalnum] on an ASCII code point. *)
Definition ascii_alnum (c : N) : bool :=
  in_range 48 57 c || in_range 65 90 c || in_range 97 122 c.

Section Chars.

(** [str.isalnum] beyond ASCII is a table of the Unicode database. *)
Variable uni_alnum : N -> bool.

Definition isalnum (c : N) : bool :=
  if c <? 128 then ascii_alnum c else uni_alnum c.

(** The class [\w] under [re.UNICODE]: alphanumeric or underscore. *)
Definition is_word (c : N) : bool := isalnum c || (c =? 95).

(** [re.match(r'^\w', s, flags=re.UNICODE)] is not [None]. *)
Definition match_word_start (s : pystr) : bool :=
  match s with
  | [] => false
  | c :: _ => is_word c
  end.

End Chars.

(** ** Messages *)

Inductive MessageType : Type := Text | Command.

(** The channel tag of a message: [ChannelType.Web], or
    ["{}-{}".format(ChannelType.API, apiname)]. *)
Inductive ChannelTag : Type :=
| ChannelWeb
| ChannelAPI (apiname : pyval).

Record Message : Type := mkMessage {
  m_channel : ChannelTag;
  m_sender : pyval;
  m_receiver : pystr;
  m_content : pyval;
  m_mtype : MessageType;
  m_date : pystr;
  m_time : pystr;
  m_room : pystr
}.

(** ** Configuration and collaborators *)

(** One entry of [config["bindings"]]; [web_post] may be left out. *)
Record binding : Type := mkBinding {
  web_post : option bool
}.

Record config : Type := mkConfig {
  bindings : gmap pystr binding;
  private_rooms : list pystr;       (* config.get("private_rooms", []) *)
  github : bool                     (* config.get('github', False) is truthy *)
}.

(** The collaborators the handlers call and that live in other modules. *)
Record world : Type := mkWorld {
  json_loads : wire -> option pyval;       (* json.loads after decoding; None: ValueError *)
  is_cmd : pyval -> option bool;           (* BaseBotInstance.is_cmd; None: it raises *)
  unicode_alnum : N -> bool;               (* str.isalnum beyond ASCII *)
  mgr_auth : pystr -> pystr -> bool;       (* APIClientManager.auth *)
  mgr_get_name : pystr -> pyval;           (* APIClientManager.get_name *)
  queue_key : pystr -> pystr;              (* APIClientManager.queue_key.format(token_id=...) *)
  now_date : pystr;                        (* get_now().strftime("%Y-%m-%d") *)
  now_time : pystr                         (* get_now().strftime("%H:%M:%S") *)
}.

Inductive http_method : Type := GET | HEAD | POST.

Record request : Type := mkRequest {
  method : http_method;
  body : wire;                        (* self.request.body *)
  current_user : bool;                (* get_secure_cookie("session") is truthy *)
  header_token_id : option pystr;     (* X-TOKEN-ID *)
  header_token_key : option pystr;    (* X-TOKEN-KEY *)
  arg_id : option pystr;              (* argument "id" *)
  arg_key : option pystr;             (* argument "key" *)
  arg_room : option pystr             (* argument "room" *)
}.

(** ** Handler state *)

(** What is written to the response: a literal text, the [json.dumps] of
    keyword arguments, or the error page of [send_error]. *)
Inductive chunk : Type :=
| Plain (s : string)
| Dumps (kwargs : list (string * pyval))
| ErrorPage (code : nat).

Record response : Type := mkResponse {
  r_status : nat;
  r_body : list chunk
}.

(** Calls that leave the handler. *)
Inductive event : Type :=
| BusPublish (m : Message)           (* mgb_im2fish.publish(msg) *)
| BusCall (m : Message)              (* mgb_im2fish(msg) *)
| MgrAuth (token_id token_key : pystr).

Record state : Type := mkState {
  status_code : nat;                     (* self._status_code *)
  write_buffer : list chunk;             (* self._write_buffer *)
  sent : option response;                (* set by finish(): the response on the wire *)
  json_data : option pyval;              (* self.json_data, once assigned *)
  trace : list event;
  redis : gmap pystr (list wire)         (* the list keys of the shared store *)
}.

Definition new_handler (store : gmap pystr (list wire)) : state :=
  mkState 200%nat [] None None [] store.

Definition finished (s : state) : bool :=
  match sent s with Some _ => true | None => false end.

(** A message reached the bus object. *)
Definition handed_to_bus (e : event) : bool :=
  match e with
  | BusPublish _ | BusCall _ => true
  | MgrAuth _ _ => false
  end.

Definition bus_messages (s : state) : list event := List.filter handed_to_bus (trace s).

(** ** The monad: state plus Python exceptions *)

Inductive exn : Type :=
| HTTPError (code : nat)
| RuntimeError
| AttributeError
| TypeError
| KeyError
| ValueError
| CollaboratorError.

Inductive result (A : Type) : Type :=
| Ok (a : A)
| Raise (e : exn).
Arguments Ok {A} a.
Arguments Raise {A} e.

Definition M (A : Type) : Type := state -> result A * state.

Definition ret {A} (a : A) : M A := fun s => (Ok a, s).

Definition raise {A} (e : exn) : M A := fun s => (Raise e, s).

Definition bind {A B} (c : M A) (k : A -> M B) : M B :=
  fun s =>
    match c s with
    | (Ok a, s') => k a s'
    | (Raise e, s') => (Raise e, s')
    end.

Declare Scope py_scope.
Delimit Scope py_scope with py.
Notation "x <- c ;; k" := (bind c (fun x => k))
  (at level 100, c at next level, right associativity) : py_scope.
Notation "c ;; k" := (bind c (fun _ => k))
  (at level 100, right associativity) : py_scope.
Local Open Scope py_scope.

Definition get_state : M state := fun s => (Ok s, s).

Definition modify (f : state -> state) : M unit := fun s => (Ok tt, f s).

Definition log (e : event) : M unit :=
  modify (fun s => mkState (status_code s) (write_buffer s) (sent s) (json_data s)
                           (trace s ++ [e]) (redis s)).

Definition set_json_data (j : pyval) : M unit :=
  modify (fun s => mkState (status_code s) (write_buffer s) (sent s) (Some j)
                           (trace s) (redis s)).

Definition with_redis (r : gmap pystr (list wire)) (s : state) : state :=
  mkState (status_code s) (write_buffer s) (sent s) (json_data s) (trace s) r.

Definition set_redis (r : gmap pystr (list wire)) : M unit :=
  modify (with_redis r).

(** ** Tornado's [RequestHandler], as far as the handlers use it *)

(** [self.set_status(code)] *)
Definition set_status (code : nat) : M unit :=
  modify (fun s => mkState code (write_buffer s) (sent s) (json_data s)
                           (trace s) (redis s)).

(** [self.write(chunk)]: refused once the request is finished. *)
Definition write (c : chunk) : M unit :=
  fun s =>
    if finished s then (Raise RuntimeError, s)
    else (Ok tt, mkState (status_code s) (write_buffer s ++ [c]) (sent s)
                         (json_data s) (trace s) (redis s)).

(** [self.finish(chunk)]: writes the chunk, if any, and flushes the
    response; a second call is refused. *)
Definition finish (c : option chunk) : M unit :=
  fun s =>
    if finished s then (Raise RuntimeError, s)
    else
      let buf := write_buffer s ++ match c with Some x => [x] | None => [] end in
      (Ok tt, mkState (status_code s) buf (Some (mkResponse (status_code s) buf))
                      (json_data s) (trace s) (redis s)).

(** [self.send_error(code)]: clears what was written and answers with the
    error page. *)
Definition send_error (code : nat) (s : state) : state :=
  mkState code [ErrorPage code] (Some (mkResponse code [ErrorPage code]))
          (json_data s) (trace s) (redis s).

Definition error_code (e : exn) : nat :=
  match e with
  | HTTPError code => code
  | _ => 500%nat
  end.

(** An exception leaving the handler: logged only when the response is
    already out, else turned into an error response. *)
Definition handle_request_exception (e : exn) (s : state) : state :=
  if finished s then s else send_error (error_code e) s.

Definition auto_finish (s : state) : state :=
  if finished s then s else snd (finish None s).

(** [RequestHandler._execute]: [prepare] runs first, and the method only
    when [prepare] did not finish the request. *)
Definition execute (prepare method : M unit) (s0 : state) : state :=
  match prepare s0 with
  | (Raise e, s1) => handle_request_exception e s1
  | (Ok _, s1) =>
      if finished s1 then s1
      else match method s1 with
           | (Raise e, s2) => handle_request_exception e s2
           | (Ok _, s2) => auto_finish s2
           end
  end.

(** The default [prepare] does nothing. *)
Definition default_prepare : M unit := ret tt.

(** ** Redis list commands *)

Definition LLEN (q : pystr) (store : gmap pystr (list wire)) : N :=
  N.of_nat (length (default [] (store !! q))).

(** [LRANGE q 0 -1] *)
Definition LRANGE_all (q : pystr) (store : gmap pystr (list wire)) : list wire :=
  default [] (store !! q).

Definition DEL (q : pystr) (store : gmap pystr (list wire)) : gmap pystr (list wire) :=
  delete q store.

(** [LPOP]: a list that becomes empty is removed. *)
Definition LPOP (q : pystr) (store : gmap pystr (list wire))
  : option (wire * gmap pystr (list wire)) :=
  match store !! q with
  | Some (x :: rest) =>
      Some (x, match rest with [] => delete q store | _ => <[q := rest]> store end)
  | _ => None
  end.

(** [RPUSH] *)
Definition RPUSH (q : pystr) (x : wire) (store : gmap pystr (list wire))
  : gmap pystr (list wire) :=
  <[q := default [] (store !! q) ++ [x]]> store.

Definition llen (q : pystr) : M N :=
  s <- get_state ;; ret (LLEN q (redis s)).

Definition lrange_all (q : pystr) : M (list wire) :=
  s <- get_state ;; ret (LRANGE_all q (redis s)).

Definition delete_key (q : pystr) : M unit :=
  s <- get_state ;; set_redis (DEL q (redis s)).

(** [BLPOP q timeout]: pops at once from a non-empty list; on an empty one
    it waits, and [arrival] is the entry a producer pushes before the
    timeout, if any.  The reply holds [q] exactly when an entry was popped. *)
Definition blpop (q : pystr) (arrival : option wire) : M (option wire) :=
  s <- get_state ;;
  match LPOP q (redis s) with
  | Some (x, store') => set_redis store' ;; ret (Some x)
  | None => ret arrival
  end.

(** Modelled from the spec: [DurableQueue.Enqueue], which lives in the API
    client manager; it appends the serialized message to the token's list. *)
Definition Enqueue (w : world) (token_id : pystr) (m : wire)
  (store : gmap pystr (list wire)) : gmap pystr (list wire) :=
  RPUSH (queue_key w token_id) m store.

(** ** Python helpers *)

(** [d.get(key, dflt)]; anything but a [dict] has no [get]. *)
Definition dict_get (d : pyval) (key : pystr) (dflt : pyval) : M pyval :=
  match d with
  | JObj items => ret (default dflt (assoc key items))
  | _ => raise AttributeError
  end.

(** [v.strip()]; only a [str] has it. *)
Definition str_strip (v : pyval) : M pystr :=
  match v with
  | JStr s => ret (strip s)
  | _ => raise AttributeError
  end.

(** [m['room']] *)
Definition room_of (m : pyval) : M pyval :=
  match m with
  | JObj items =>
      match assoc (u "room") items with
      | Some v => ret v
      | None => raise KeyError
      end
  | _ => raise TypeError
  end.

(** A list comprehension whose element expression may raise. *)
Fixpoint mapM {A B} (f : A -> M B) (l : list A) : M (list B) :=
  match l with
  | [] => ret []
  | x :: rest => y <- f x ;; ys <- mapM f rest ;; ret (y :: ys)
  end.

Fixpoint filterM {A} (f : A -> M bool) (l : list A) : M (list A) :=
  match l with
  | [] => ret []
  | x :: rest =>
      b <- f x ;; ys <- filterM f rest ;; ret (if b then x :: ys else ys)
  end.

Section Handlers.

Variable w : world.
Variable cfg : config.
Variable req : request.

(** [json.loads(...)], raising [ValueError] on a payload that does not parse. *)
Definition loads (p : wire) : M pyval :=
  match json_loads w p with
  | Some j => ret j
  | None => raise ValueError
  end.

Definition call_is_cmd (content : pyval) : M bool :=
  match is_cmd w content with
  | Some b => ret b
  | None => raise CollaboratorError
  end.

(** [room not in config["bindings"] or room in config.get("private_rooms", [])];
    [None] is the missing argument of the long-polling handler. *)
Definition room_not_found (room : option pystr) : bool :=
  match room with
  | None => true
  | Some r =>
      negb (bool_decide (is_Some (bindings cfg !! r)))
      || bool_decide (r ∈ private_rooms cfg)
  end.

(** [config["bindings"].get(room, {}).get("web_post", True)] *)
Definition web_post_flag (room : pystr) : bool :=
  match bindings cfg !! room with
  | Some b => default true (web_post b)
  | None => true
  end.

(** [self.json_data] *)
Definition get_json_data : M pyval :=
  s <- get_state ;;
  match json_data s with
  | Some j => ret j
  | None => raise AttributeError
  end.

(** [self.write_json(status_code, **kwargs)] of both handler families. *)
Definition write_json (code : nat) (kwargs : list (string * pyval)) : M unit :=
  set_status code ;; write (Dumps kwargs).

(** [self.redirect(url)] *)
Definition redirect : M unit :=
  set_status 302 ;; finish None.

(** The decorator [authenticated]. *)
Definition authenticated (f : M unit) : M unit :=
  if github cfg && negb (current_user req) then
    match method req with
    | GET | HEAD => redirect
    | POST => raise (HTTPError 403)
    end
  else f.

(** ** [PostMessageHandler] *)

(** [PostMessageHandler.post], the function under the decorator. *)
Definition PostMessageHandler_post (room : pystr) : M unit :=
  if room_not_found (Some room) then
    set_status 404 ;; finish (Some (Plain "Room not found"))
  else if negb (web_post_flag room) then
    write_json 403 [("message", JStr (u "Web post is disabled."))] ;; finish None
  else
    match json_loads w (body req) with
    | None =>
        write_json 400 [("message", JStr (u "Unable to parse JSON."))] ;; finish None
    | Some j =>
        set_json_data j ;;
        d <- get_json_data ;;
        content <- dict_get d (u "content") JNull ;;
        if negb (truthy content) then
          write_json 400 [("msg", JStr (u "Cannot send empty message"))] ;; finish None
        else
          d <- get_json_data ;;
          nickname <- dict_get d (u "nickname") (JStr []) ;;
          sender <- str_strip nickname ;;
          if negb (truthy (JStr sender)) then
            write_json 400 [("msg", JStr (u "Nickname must be set"))] ;; finish None
          else if negb (match_word_start (unicode_alnum w) sender) then
            write_json 400
              [("msg", JStr (u "Invalid char found, use a human's nickname instead!"))] ;;
            finish None
          else
            cmd <- call_is_cmd content ;;
            let mtype := if cmd then Command else Text in
            let msg := mkMessage ChannelWeb (JStr sender) room content mtype
                                 (now_date w) (now_time w) room in
            log (BusPublish msg) ;;
            write_json 200 [("msg", JStr (u "OK"))] ;;
            finish None
    end.

(** ** [APIRequestHandler] *)

(** [self.request.headers.get("X-TOKEN-ID", self.get_argument("id", ""))] *)
Definition token_id_of (r : request) : pystr :=
  default (default [] (arg_id r)) (header_token_id r).

(** [self.request.headers.get("X-TOKEN-KEY", self.get_argument("key", ""))] *)
Definition token_key_of (r : request) : pystr :=
  default (default [] (arg_key r)) (header_token_key r).

(** [APIRequestHandler.auth]: the token id, or [None] with status 403. *)
Definition APIRequestHandler_auth : M (option pystr) :=
  let token_id := token_id_of req in
  let token_key := token_key_of req in
  log (MgrAuth token_id token_key) ;;
  if mgr_auth w token_id token_key then ret (Some token_id)
  else set_status 403 ;; ret None.

(** ** [APILongPollingHandler] *)

(** [m['room'] == room] *)
Definition room_is (room : pystr) (m : pyval) : M bool :=
  v <- room_of m ;; ret (eq_str v room).

(** Lines 344-354 of [APILongPollingHandler.get]: take what the token's
    queue holds, or wait for one entry; [arrival] is what reaches an empty
    queue while [blpop] waits. *)
Definition drain_queue (token_id : pystr) (arrival : option wire) : M (list pyval) :=
  let queue := queue_key w token_id in
  l <- llen queue ;;
  if 0 <? l then
    raw <- lrange_all queue ;;
    delete_key queue ;;
    mapM loads raw
  else
    got <- blpop queue arrival ;;
    match got with
    | Some x => m <- loads x ;; ret [m]
    | None => ret []
    end.

(** [APILongPollingHandler.get] *)
Definition APILongPollingHandler_get (arrival : option wire) : M unit :=
  token_id <- APIRequestHandler_auth ;;
  match token_id with
  | None => finish (Some (Plain "Invalid Token"))
  | Some token_id =>
      let room := arg_room req in
      if room_not_found room then
        set_status 404 ;; finish (Some (Plain "Room not found"))
      else
        msgs <- drain_queue token_id arrival ;;
        msgs <- (match room with
                 | Some ((_ :: _) as r) => filterM (room_is r) msgs
                 | _ => ret msgs
                 end) ;;
        write_json 200 [("messages", JArr msgs)] ;;
        finish None
  end.

(** ** [APIPostMessageHandler] *)

Definition APIPostMessageHandler_prepare : M unit :=
  match body req with
  | String _ _ =>
      match json_loads w (body req) with
      | Some j => set_json_data j
      | None =>
          write_json 400 [("message", JStr (u "Unable to parse JSON."))] ;; finish None
      end
  | EmptyString =>
      write_json 400 [("message", JStr (u "Cannot handle empty request"))] ;; finish None
  end.

Definition APIPostMessageHandler_post (room : pystr) : M unit :=
  if room_not_found (Some room) then
    set_status 404 ;; finish (Some (Plain "Room not found"))
  else
    token_id <- APIRequestHandler_auth ;;
    match token_id with
    | None => finish (Some (Plain "Invalid Token"))
    | Some token_id =>
        d <- get_json_data ;;
        content <- dict_get d (u "content") JNull ;;
        (if negb (truthy content) then
           write_json 400 [("message", JStr (u "Cannot send empty message"))] ;;
           finish None
         else ret tt) ;;
        let apiname := mgr_get_name w token_id in
        d <- get_json_data ;;
        sender <- dict_get d (u "sender") apiname ;;
        cmd <- call_is_cmd content ;;
        let mtype := if cmd then Command else Text in
        let msg := mkMessage (ChannelAPI apiname) sender room content mtype
                             (now_date w) (now_time w) room in
        log (BusCall msg) ;;
        write_json 200 [("message", JStr (u "OK"))] ;;
        finish None
    end.

(** ** Whole requests, as Tornado runs them *)

Definition web_post_request (room : pystr) : state -> state :=
  execute default_prepare (authenticated (PostMessageHandler_post room)).

Definition api_post_request (room : pystr) : state -> state :=
  execute APIPostMessageHandler_prepare (APIPostMessageHandler_post room).

Definition long_poll_request (arrival : option wire) : state -> state :=
  execute default_prepare (APILongPollingHandler_get arrival).

End Handlers.

(** ** Concurrent pollers on one token

    Lines 345-354 of [APILongPollingHandler.get] issue one Redis command
    at a time and yield to the IO loop in between, so the commands of two
    requests may interleave.  A poller is the program counter of that
    fragment; a step is one command on the shared store. *)

Inductive poller : Type :=
| AtLlen                          (* about to send LLEN *)
| AtLrange                        (* l > 0: about to send LRANGE 0 -1 *)
| AtDelete (msgs : list wire)     (* about to send DEL *)
| AtBlpop                         (* l = 0: about to send BLPOP *)
| Returned (msgs : list wire).    (* past line 354 *)

(** One command of a poller; [BLPOP] on an empty list runs into its timeout. *)
Definition poller_step (q : pystr) (p : poller) (store : gmap pystr (list wire))
  : poller * gmap pystr (list wire) :=
  match p with
  | AtLlen => (if 0 <? LLEN q store then AtLrange else AtBlpop, store)
  | AtLrange => (AtDelete (LRANGE_all q store), store)
  | AtDelete msgs => (Returned msgs, DEL q store)
  | AtBlpop =>
      match LPOP q store with
      | Some (x, store') => (Returned [x], store')
      | None => (Returned [], store)
      end
  | Returned msgs => (Returned msgs, store)
  end.

Inductive caller : Type := CallerA | CallerB.

Record pollers : Type := mkPollers {
  shared : gmap pystr (list wire);
  poller_a : poller;
  poller_b : poller
}.

Definition start (store : gmap pystr (list wire)) : pollers :=
  mkPollers store AtLlen AtLlen.

Definition pollers_step (q : pystr) (sys : pollers) (c : caller) : pollers :=
  match c with
  | CallerA =>
      let '(p, store) := poller_step q (poller_a sys) (shared sys) in
      mkPollers store p (poller_b sys)
  | CallerB =>
      let '(p, store) := poller_step q (poller_b sys) (shared sys) in
      mkPollers store (poller_a sys) p
  end.

(** The schedule names the caller whose next command the store serves. *)
Definition run_schedule (q : pystr) (sched : list caller) (sys : pollers) : pollers :=
  fold_left (pollers_step q) sched sys.

Definition delivered (p : poller) : list wire :=
  match p with
  | Returned msgs => msgs
  | _ => []
  end.

Definition occurrences (e : wire) (l : list wire) : nat :=
  length (List.filter (String.eqb e) l).

(** No entry reaches the two callers more often than it was queued. *)
Definition no_double_delivery (q : pystr) (store : gmap pystr (list wire))
  (sched : list caller) : Prop :=
  let sys := run_schedule q sched (start store) in
  forall e : wire,
    (occurrences e (delivered (poller_a sys)) + occurrences e (delivered (poller_b sys))
     <= occurrences e (LRANGE_all q store))%nat.

(** ** A small deployment, for examples *)

Definition quoted (s : string) : string :=
  String (ascii_of_nat 34) (s ++ String (ascii_of_nat 34) EmptyString).

(** The JSON text of a flat object with string values. *)
Fixpoint json_fields (fields : list (string * string)) : string :=
  match fields with
  | [] => ""
  | [(k, v)] => quoted k ++ ": " ++ quoted v
  | (k, v) :: rest => quoted k ++ ": " ++ quoted v ++ ", " ++ json_fields rest
  end.

Definition json_text (fields : list (string * string)) : wire :=
  "{" ++ json_fields fields ++ "}".

Definition json_object (fields : list (string * string)) : pyval :=
  JObj (map (fun kv => (u (fst kv), JStr (u (snd kv)))) fields).

Definition demo_payloads : list (list (string * string)) :=
  [ [("content", "hello"); ("nickname", "alice")];
    [("content", "hello"); ("nickname", "3")];
    [("content", "hello"); ("nickname", "#bot")];
    [("content", "hello"); ("nickname", "bot1")];
    [("content", "hello"); ("nickname", "   ")];
    [("content", "hello")];
    [("content", ""); ("nickname", "alice")];
    [("content", "")];
    [("nickname", "alice")];
    [("room", "general"); ("content", "hello")];
    [("room", "dev"); ("content", "patch")] ].

(** [json.loads] on the payloads above; any other text does not parse. *)
Definition demo_loads (p : wire) : option pyval :=
  json_object <$> List.find (fun f => String.eqb (json_text f) p) demo_payloads.

(** Commands start with a slash; [is_cmd] raises on anything but a [str]. *)
Definition demo_is_cmd (v : pyval) : option bool :=
  match v with
  | JStr (c :: _) => Some (c =? 47)
  | JStr [] => Some false
  | _ => None
  end.

Definition demo_world : world :=
  mkWorld demo_loads demo_is_cmd (fun _ => false)
          (fun id key => pystr_eqb id (u "tok1") && pystr_eqb key (u "s3cret"))
          (fun _ => JStr (u "app"))
          (fun id => u "queue:" ++ id)
          (u "2016-05-04") (u "12:00:00").

Definition demo_config : config :=
  mkConfig (<[u "general" := mkBinding None]>
            (<[u "quiet" := mkBinding (Some false)]>
             (<[u "dev" := mkBinding (Some true)]>
              (<[u "staff" := mkBinding None]> ∅))))
           [u "staff"] false.

(** The same deployment with the GitHub login configured. *)
Definition demo_config_oauth : config :=
  mkConfig (bindings demo_config) (private_rooms demo_config) true.

Definition demo_post (payload : wire) : request :=
  mkRequest POST payload false None None None None None.

Definition demo_api (payload : wire) (key : string) (room : option pystr) : request :=
  mkRequest POST payload false (Some (u "tok1")) (Some (u key)) None None room.

(** ** Vocabulary of the statements *)

(** The answer to an unknown or private room, on a handler that has
    written [buf] so far. *)
Definition room_not_found_response (buf : list chunk) : response :=
  mkResponse 404 (buf ++ [Plain "Room not found"]).

(** The session gate of [authenticated] lets the request through. *)
Definition passes_gate (cfg : config) (req : request) : bool :=
  negb (github cfg && negb (current_user req)).

Definition empty_message_web : response :=
  mkResponse 400 [Dumps [("msg", JStr (u "Cannot send empty message"))]].

Definition empty_message_api : response :=
  mkResponse 400 [Dumps [("message", JStr (u "Cannot send empty message"))]].

Definition nickname_unset : response :=
  mkResponse 400 [Dumps [("msg", JStr (u "Nickname must be set"))]].

Definition invalid_char : response :=
  mkResponse 400
    [Dumps [("msg", JStr (u "Invalid char found, use a human's nickname instead!"))]].

Definition posted_ok : response :=
  mkResponse 200 [Dumps [("msg", JStr (u "OK"))]].

(** The room a decoded entry carries, if it is an object with that key. *)
Definition room_field (m : pyval) : option pyval :=
  match m with
  | JObj items => assoc (u "room") items
  | _ => None
  end.

Definition room_matches (r : pystr) (m : pyval) : bool :=
  match room_field m with
  | Some v => eq_str v r
  | None => false
  end.

(** The state in which [get] reads the queue: the token was checked, and
    nothing was written yet. *)
Definition polling (req : request) (store : gmap pystr (list wire)) : state :=
  mkState 200 [] None None [MgrAuth (token_id_of req) (token_key_of req)] store.

Definition messages_response (msgs : list pyval) : response :=
  mkResponse 200 [Dumps [("messages", JArr msgs)]].

(** What [HTTPError(403)] becomes on the wire. *)
Definition forbidden : response := mkResponse 403 [ErrorPage 403].

Definition invalid_token (buf : list chunk) : response :=
  mkResponse 403 (buf ++ [Plain "Invalid Token"]).

Definition posting_disabled : response :=
  mkResponse 403 [Dumps [("message", JStr (u "Web post is disabled."))]].

Definition empty_request : response :=
  mkResponse 400 [Dumps [("message", JStr (u "Cannot handle empty request"))]].

Definition unparsable_request : response :=
  mkResponse 400 [Dumps [("message", JStr (u "Unable to parse JSON."))]].

Definition mine (c : caller) (sys : pollers) : poller :=
  match c with
  | CallerA => poller_a sys
  | CallerB => poller_b sys
  end.

Definition other (c : caller) : caller :=
  match c with
  | CallerA => CallerB
  | CallerB => CallerA
  end.

(** The states a poller goes through while nobody else touches the queue,
    started on [store]: it has delivered nothing and the store is as it
    was, or it has delivered the whole list and the key is deleted. *)
Inductive alone (q : pystr) (store : gmap pystr (list wire))
  : poller -> gmap pystr (list wire) -> Prop :=
| alone_llen : alone q store AtLlen store
| alone_lrange : alone q store AtLrange store
| alone_delete : alone q store (AtDelete (LRANGE_all q store)) store
| alone_blpop : LRANGE_all q store = [] -> alone q store AtBlpop store
| alone_delivered : alone q store (Returned (LRANGE_all q store)) (DEL q store)
| alone_timeout : alone q store (Returned []) store.

(** ** More vocabulary *)

(** What an exception that leaves a handler becomes on the wire. *)
Definition server_error : response := mkResponse 500 [ErrorPage 500].

Definition api_ok : response :=
  mkResponse 200 [Dumps [("message", JStr (u "OK"))]].

(** [v] is not a [dict]. *)
Definition not_a_dict (v : pyval) : bool :=
  match v with
  | JObj _ => false
  | _ => true
  end.

(** [v] is not a [str]. *)
Definition not_a_str (v : pyval) : bool :=
  match v with
  | JStr _ => false
  | _ => true
  end.

(** ** The chat log of a day

    [ChatLogHandler.get] and [TextStoreHandler.get] read the list that the
    logger keeps per room and day, in the same store. *)

(** [LRANGE key start stop], by Redis' rules: negative indexes count from
    the end, the range is clamped to the list, and an inverted or
    out-of-range one is empty. *)
Definition LRANGE (q : pystr) (start stop : Z) (store : gmap pystr (list wire))
  : list wire :=
  let l := default [] (store !! q) in
  let llen := Z.of_nat (length l) in
  let start := (if start <? 0 then llen + start else start)%Z in
  let stop := (if stop <? 0 then llen + stop else stop)%Z in
  let start := (if start <? 0 then 0 else start)%Z in
  if ((start >? stop) || (start >=? llen))%Z then []
  else
    let stop := (if stop >=? llen then llen - 1 else stop)%Z in
    take (Z.to_nat (stop - start + 1)) (drop (Z.to_nat start) l).

(** [d[k] = v] on the items of a [dict]: in place when the key is there,
    at the end when it is new. *)
Fixpoint dict_set (k : pystr) (v : pyval) (items : list (pystr * pyval))
  : list (pystr * pyval) :=
  match items with
  | [] => [(k, v)]
  | (k', v') :: rest =>
      if pystr_eqb k k' then (k, v) :: rest else (k', v') :: dict_set k v rest
  end.

(** [d.pop(k, None)] *)
Fixpoint dict_pop (k : pystr) (items : list (pystr * pyval)) : list (pystr * pyval) :=
  match items with
  | [] => []
  | (k', v') :: rest => if pystr_eqb k k' then rest else (k', v') :: dict_pop k rest
  end.

(** The body of the loop at lines 156-159: [m['id'] = i], then the two
    [pop]s; only a [dict] takes the assignment. *)
Definition tag_message (i : Z) (m : pyval) : result pyval :=
  match m with
  | JObj items =>
      Ok (JObj (dict_pop (u "receiver") (dict_pop (u "opt")
                  (dict_set (u "id") (JNum i) items))))
  | _ => Raise TypeError
  end.

(** [for i, m in zip(range(i, i + count), msgs)]: the loop stops with the
    shorter of the two, and the messages past it stay as they are. *)
Fixpoint tag_messages (i : Z) (count : nat) (msgs : list pyval)
  : result (list pyval) :=
  match count, msgs with
  | S count', m :: rest =>
      match tag_message i m with
      | Ok m' =>
          match tag_messages (i + 1) count' rest with
          | Ok rest' => Ok (m' :: rest')
          | Raise e => Raise e
          end
      | Raise e => Raise e
      end
  | _, _ => Ok msgs
  end.

(** [[json.loads(x) for x in logs]] *)
Fixpoint loads_all (w : world) (logs : list wire) : result (list pyval) :=
  match logs with
  | [] => Ok []
  | x :: rest =>
      match json_loads w x with
      | Some j =>
          match loads_all w rest with
          | Ok js => Ok (j :: js)
          | Raise e => Raise e
          end
      | None => Raise ValueError
      end
  end.

(** What the log handlers call and that lives in other modules or in
    Python's library. *)
Record logs_env : Type := mkLogsEnv {
  log_key : pystr -> pystr -> pystr;        (* ChatLogger.LOG_QUEUE_TMPL.format(channel=room, date=date) *)
  py_int : pystr -> option Z;               (* int(s); None: ValueError *)
  age : pystr -> option Z;                  (* get_now() - tz.localize(strptime(date, "%Y-%m-%d")),
                                               in microseconds; None: strptime raises *)
  message_loads : wire -> option Message;   (* Message.loads after decoding; None: it raises *)
  md5_hexdigest : pystr -> string           (* hashlib.md5(text.encode('utf-8')).hexdigest() *)
}.

(** The arguments of a log request, as [get_argument] finds them. *)
Record log_query : Type := mkLogQuery {
  q_embedded : option pystr;
  q_last : option pystr;
  q_limit : option pystr;
  q_json : option pystr
}.

Inductive log_answer : Type :=
| LogRoomNotFound                      (* 404 "Room not found" *)
| LogDarkHistory                       (* 403 "Dark History Coverred" *)
| LogJson (msgs : list pyval)          (* json.dumps(msgs), as application/json *)
| LogPage (next_id : Z) (enable_ws : bool) (date : pystr) (embedded : bool)
          (limit : Z).                 (* chat_log.html with these arguments; its
                                          title, room list, dates and base path
                                          are not kept here *)

(** [timedelta(days=7)], in microseconds. *)
Definition seven_days : Z := 604800000000.

(** [int(self.get_argument(name, dflt))] for an integer default. *)
Definition int_argument (env : logs_env) (arg : option pystr) (dflt : Z) : option Z :=
  match arg with
  | Some s => py_int env s
  | None => Some dflt
  end.

(** Truth of [self.get_argument(name, None)]: present and not empty. *)
Definition argument_given (arg : option pystr) : bool :=
  match arg with
  | Some (_ :: _) => true
  | _ => false
  end.

(** [ChatLogHandler.get], the function under its decorators. *)
Definition ChatLogHandler_get (w : world) (cfg : config) (env : logs_env)
  (store : gmap pystr (list wire)) (room date : pystr) (q : log_query)
  : result log_answer :=
  if room_not_found cfg (Some room) then Ok LogRoomNotFound
  else
    let enable_ws := pystr_eqb date (u "today") in
    let date := if enable_ws then now_date w else date in
    match age env date with
    | None => Raise ValueError
    | Some a =>
        if (a >? seven_days)%Z then Ok LogDarkHistory
        else
          let embedded := q_embedded q in
          let key := log_key env room date in
          let mlen := Z.of_N (LLEN key store) in
          match int_argument env (q_last q) mlen with
          | None => Raise ValueError
          | Some last_arg =>
              let last := (last_arg - 1)%Z in
              match int_argument env (q_limit q)
                      (if argument_given embedded then 15%Z else mlen) with
              | None => Raise ValueError
              | Some limit =>
                  let start := Z.max (last - limit + 1) 0 in
                  if argument_given (q_json q) then
                    let logs := LRANGE key start last store in
                    match loads_all w logs with
                    | Raise e => Raise e
                    | Ok msgs =>
                        match tag_messages start (Z.to_nat (last + 1 - start)) msgs with
                        | Raise e => Raise e
                        | Ok msgs => Ok (LogJson msgs)
                        end
                    end
                  else
                    Ok (LogPage mlen enable_ws date
                                (match embedded with Some _ => true | None => false end)
                                limit)
              end
          end
    end.

Inductive text_answer : Type :=
| TextNotFound                                   (* 404 "text not found" *)
| TextPage (sender content : pyval) (date time : pystr).   (* text_store.html *)

(** [TextStoreHandler.get], the function under its decorators. *)
Definition TextStoreHandler_get (env : logs_env) (store : gmap pystr (list wire))
  (room date msg_id : pystr) : result text_answer :=
  let key := log_key env room date in
  match py_int env msg_id with
  | None => Raise ValueError
  | Some i =>
      match LRANGE key i i store with
      | [] => Ok TextNotFound
      | v :: _ =>
          match message_loads env v with
          | Some msg => Ok (TextPage (m_sender msg) (m_content msg) (m_date msg) (m_time msg))
          | None => Raise CollaboratorError
          end
      end
  end.

(** What the loop at lines 156-159 makes of an entry listed under [i]. *)
Definition listed (i : Z) (items : list (pystr * pyval)) : pyval :=
  JObj (dict_pop (u "receiver") (dict_pop (u "opt") (dict_set (u "id") (JNum i) items))).

Fixpoint with_ids (i : Z) (objs : list (list (pystr * pyval))) : list pyval :=
  match objs with
  | [] => []
  | o :: rest => listed i o :: with_ids (i + 1) rest
  end.

(** The page [text_store.html] is rendered with for a stored entry. *)
Definition text_page (env : logs_env) (v : wire) : result text_answer :=
  match message_loads env v with
  | Some msg => Ok (TextPage (m_sender msg) (m_content msg) (m_date msg) (m_time msg))
  | None => Raise CollaboratorError
  end.

(** ** The colour of a name *)

(** The value of a hexadecimal digit. *)
Definition hex_digit (c : ascii) : option N :=
  let n := N_of_ascii c in
  if in_range 48 57 n then Some (n - 48)
  else if in_range 97 102 n then Some (n - 87)
  else if in_range 65 70 n then Some (n - 55)
  else None.

Fixpoint hex_digits (acc : N) (s : string) : option N :=
  match s with
  | EmptyString => Some acc
  | String c rest =>
      match hex_digit c with
      | Some d => hex_digits (16 * acc + d) rest
      | None => None
      end
  end.

(** [int(s, 16)] on a string of hexadecimal digits, which is what a digest
    is; the signs, prefixes and blanks that [int] also takes are left
    out.  [None]: ValueError. *)
Definition int16 (s : string) : option N :=
  match s with
  | EmptyString => None
  | _ => hex_digits 0 s
  end.

(** ["%d" % n] for a natural number. *)
Definition percent_d (n : N) : string :=
  DecimalString.NilZero.string_of_uint (N.to_uint n).

(** [ChatLogHandler.name_style_num] *)
Definition name_style_num (env : logs_env) (text : pystr) : result string :=
  match int16 (substring 0 8 (md5_hexdigest env text)) with
  | Some n => Ok (percent_d (N.land n 7))
  | None => Raise ValueError
  end.

(** ** The message stream

    [MessageStreamHandler] is a websocket: Tornado calls [on_message] for
    every frame the browser sends and [on_close] once at the end.  The
    handler keeps two attributes, [self.r] and [self.redis_chan]; the
    clients that [get_redis] makes are numbered in the order they are
    made, and what the handler asks of them and of the socket is kept as a
    trace. *)

Inductive ws_event : Type :=
| WsConnect (c : nat)                     (* get_redis(): client [c] is made and connected *)
| WsSubscribe (c : nat) (chan : pystr)    (* c.subscribe(chan) *)
| WsListen (c : nat)                      (* c.listen(self._on_update) *)
| WsUnsubscribe (c : nat) (chan : pystr)  (* c.unsubscribe(chan) *)
| WsDisconnect (c : nat)                  (* c.disconnect() *)
| WsClose.                                (* self.close() *)

Record socket : Type := mkSocket {
  ws_r : option nat;                      (* self.r *)
  redis_chan : option pystr;              (* self.redis_chan; None: not set yet *)
  clients : nat;                          (* how many clients get_redis has made *)
  subscriptions : gmap nat (list pystr);  (* the channels each client is subscribed to *)
  ws_trace : list ws_event
}.

(** [__init__] *)
Definition new_socket : socket := mkSocket None None 0 ∅ [].

Definition ws_log (es : list ws_event) (s : socket) : socket :=
  mkSocket (ws_r s) (redis_chan s) (clients s) (subscriptions s) (ws_trace s ++ es).

(** [self.close()] *)
Definition ws_close (s : socket) : socket := ws_log [WsClose] s.

(** [self.r = get_redis()] *)
Definition set_r (s : socket) : socket :=
  let c := clients s in
  mkSocket (Some c) (redis_chan s) (S c) (subscriptions s) (ws_trace s ++ [WsConnect c]).

(** [c.subscribed]: the client holds a subscription. *)
Definition subscribed (c : nat) (s : socket) : bool :=
  match subscriptions s !! c with
  | Some (_ :: _) => true
  | _ => false
  end.

(** [_listen], with the subscription taken as done when it is asked for. *)
Definition MessageStreamHandler_listen (channel : pystr -> pystr) (room : pystr)
  (s : socket) : result socket :=
  let chan := channel room in
  match ws_r s with
  | Some c =>
      Ok (mkSocket (ws_r s) (Some chan) (clients s)
                   (<[c := chan :: default [] (subscriptions s !! c)]> (subscriptions s))
                   (ws_trace s ++ [WsSubscribe c chan; WsListen c]))
  | None => Raise AttributeError
  end.

(** [on_message]; the bare [except] turns every exception into a close. *)
Definition MessageStreamHandler_on_message (w : world) (cfg : config)
  (channel : pystr -> pystr) (jmsg : wire) (s : socket) : socket :=
  match json_loads w jmsg with
  | None => ws_close s
  | Some msg =>
      let s := set_r s in
      match msg with
      | JObj items =>
          match assoc (u "room") items with
          | Some (JStr room) =>
              if room_not_found cfg (Some room) then ws_close s
              else
                match MessageStreamHandler_listen channel room s with
                | Ok s' => s'
                | Raise _ => ws_close s
                end
          | Some (JArr _) | Some (JObj _) => ws_close s   (* unhashable: TypeError *)
          | Some _ => ws_close s                          (* not a key of the bindings *)
          | None => ws_close s                            (* KeyError *)
          end
      | _ => ws_close s                                   (* TypeError *)
      end
  end.

(** [on_close] *)
Definition MessageStreamHandler_on_close (s : socket) : result socket :=
  match ws_r s with
  | None => Ok s
  | Some c =>
      if subscribed c s then
        match redis_chan s with
        | Some chan =>
            Ok (mkSocket (ws_r s) (redis_chan s) (clients s)
                         (<[c := filter (fun x => x <> chan) (default [] (subscriptions s !! c))]>
                            (subscriptions s))
                         (ws_trace s ++ [WsUnsubscribe c chan; WsDisconnect c]))
        | None => Raise AttributeError
        end
      else Ok (ws_log [WsDisconnect c] s)
  end.

(** The frames of a connection, in order. *)
Definition frames (w : world) (cfg : config) (channel : pystr -> pystr)
  (jmsgs : list wire) : socket :=
  fold_left (fun s jmsg => MessageStreamHandler_on_message w cfg channel jmsg s)
            jmsgs new_socket.

(** The clients that a trace leaves connected. *)
Fixpoint connected (acc : list nat) (t : list ws_event) : list nat :=
  match t with
  | [] => acc
  | WsConnect c :: rest => connected (acc ++ [c]) rest
  | WsDisconnect c :: rest => connected (filter (fun x => x <> c) acc) rest
  | _ :: rest => connected acc rest
  end.

(** The frames that [json.loads] takes. *)
Definition decodable (w : world) (jmsgs : list wire) : list wire :=
  filter (fun jmsg => is_Some (json_loads w jmsg)) jmsgs.

(** What holds of a socket after frames of which [n] were decodable: the
    clients are [0 .. n-1], all connected, [self.r] is the last of them,
    and a client holds at most one subscription, which for the last
    client is [self.redis_chan]. *)
Definition stream_inv (n : nat) (s : socket) : Prop :=
  clients s = n
  /\ ws_r s = match n with O => None | S k => Some k end
  /\ connected [] (ws_trace s) = seq 0 n
  /\ forall (c : nat) (chans : list pystr),
       subscriptions s !! c = Some chans ->
       (c < n)%nat
       /\ exists chan : pystr,
            chans = [chan] /\ (S c = n -> redis_chan s = Some chan).

(** ** A small log, for examples *)

(** [int] on an optional minus sign and ASCII digits. *)
Fixpoint demo_digits (acc : Z) (s : pystr) : option Z :=
  match s with
  | [] => Some acc
  | c :: rest =>
      if in_range 48 57 c then demo_digits (10 * acc + Z.of_N (c - 48)) rest
      else None
  end.

Definition demo_int (s : pystr) : option Z :=
  match s with
  | [] => None
  | 45 :: (_ :: _) as rest => Z.opp <$> demo_digits 0 (tail rest)
  | _ => demo_digits 0 s
  end.

Definition demo_message_loads (v : wire) : option Message :=
  match demo_loads v with
  | Some (JObj items) =>
      Some (mkMessage ChannelWeb (default JNull (assoc (u "sender") items)) []
                      (default JNull (assoc (u "content") items)) Text
                      (u "2016-05-04") (u "12:00:00") (u "general"))
  | _ => None
  end.

Definition demo_logs_env : logs_env :=
  mkLogsEnv (fun room date => u "log:" ++ room ++ u ":" ++ date)
            demo_int (fun _ => Some 0%Z) demo_message_loads
            (fun _ => "d41d8cd98f00b204e9800998ecf8427e").

(** Three entries logged for the room "general" on 2016-05-04. *)
Definition demo_log : gmap pystr (list wire) :=
  {[ u "log:general:2016-05-04" :=
       [json_text [("content", "hello"); ("nickname", "alice")];
        json_text [("room", "general"); ("content", "hello")];
        json_text [("content", "hello")]] ]}.

Definition demo_query (last limit : option string) : log_query :=
  mkLogQuery None (u <$> last) (u <$> limit) (Some (u "1")).

(** * Properties *)

(** ** Tornado primitives *)

Lemma finish_open (c : option chunk) (s : state) :
  finished s = false ->
  finish c s =
    (Ok tt,
     let buf := write_buffer s ++ match c with Some x => [x] | None => [] end in
     mkState (status_code s) buf (Some (mkResponse (status_code s) buf))
             (json_data s) (trace s) (redis s)).
Proof. intros H. unfold finish. now rewrite H. Qed.

Lemma web_post_room_not_found (w : world) (cfg : config) (req : request)
  (room : pystr) (s : state) :
  room_not_found cfg (Some room) = true ->
  finished s = false ->
  PostMessageHandler_post w cfg req room s =
    (Ok tt, mkState 404 (write_buffer s ++ [Plain "Room not found"])
                    (Some (room_not_found_response (write_buffer s)))
                    (json_data s) (trace s) (redis s)).
Proof.
  intros Hroom Hopen. unfold PostMessageHandler_post. rewrite Hroom.
  unfold bind, set_status, modify. rewrite finish_open by exact Hopen.
  reflexivity.
Qed.

Lemma api_post_room_not_found (w : world) (cfg : config) (req : request)
  (room : pystr) (s : state) :
  room_not_found cfg (Some room) = true ->
  finished s = false ->
  APIPostMessageHandler_post w cfg req room s =
    (Ok tt, mkState 404 (write_buffer s ++ [Plain "Room not found"])
                    (Some (room_not_found_response (write_buffer s)))
                    (json_data s) (trace s) (redis s)).
Proof.
  intros Hroom Hopen. unfold APIPostMessageHandler_post. rewrite Hroom.
  unfold bind, set_status, modify. rewrite finish_open by exact Hopen.
  reflexivity.
Qed.

Lemma web_request_room_not_found (w : world) (cfg : config) (req : request)
  (room : pystr) (store : gmap pystr (list wire)) :
  room_not_found cfg (Some room) = true ->
  let s' := web_post_request w cfg req room (new_handler store) in
  trace s' = [] /\ redis s' = store /\
  (passes_gate cfg req = true -> sent s' = Some (room_not_found_response [])).
Proof.
  intros Hroom. unfold web_post_request, execute, default_prepare, ret.
  cbn [finished sent new_handler]. unfold authenticated, passes_gate.
  destruct (github cfg && negb (current_user req)) eqn:Hgate.
  - destruct (method req); cbn; repeat split; intros; discriminate.
  - rewrite web_post_room_not_found by (exact Hroom || reflexivity).
    cbn. repeat split; reflexivity.
Qed.

Lemma api_request_room_not_found (w : world) (cfg : config) (req : request)
  (room : pystr) (store : gmap pystr (list wire)) :
  room_not_found cfg (Some room) = true ->
  let s' := api_post_request w cfg req room (new_handler store) in
  trace s' = [] /\ redis s' = store /\
  (body req <> "" -> is_Some (json_loads w (body req)) ->
   sent s' = Some (room_not_found_response [])).
Proof.
  intros Hroom. unfold api_post_request, execute, APIPostMessageHandler_prepare.
  destruct (body req) as [|c rest] eqn:Hbody.
  - cbn. repeat split; intros; congruence.
  - destruct (json_loads w (String c rest)) as [j|] eqn:Hj.
    + cbn. rewrite api_post_room_not_found by (exact Hroom || reflexivity).
      cbn. repeat split; reflexivity.
    + cbn. repeat split. intros _ [j Hsome]. discriminate.
Qed.

(** C1, as the code has it.  A publish, by web post or by API post, whose
    room is not in the bindings or is private never reaches the bus and
    leaves the store as it was, whatever the session gate and [prepare] do
    before the method runs.  The [post] method answers it 404 "Room not
    found"; that is the answer of the request once it is past the session
    gate (web) or has a non-empty body that parses (API). *)
Theorem C1_unknown_room_is_not_published (w : world) (cfg : config) (req : request)
  (room : pystr) (s : state) (store : gmap pystr (list wire)) :
  room_not_found cfg (Some room) = true ->
  finished s = false ->
  (exists s', PostMessageHandler_post w cfg req room s = (Ok tt, s')
     /\ sent s' = Some (room_not_found_response (write_buffer s))
     /\ trace s' = trace s /\ redis s' = redis s)
  /\ (exists s', APIPostMessageHandler_post w cfg req room s = (Ok tt, s')
     /\ sent s' = Some (room_not_found_response (write_buffer s))
     /\ trace s' = trace s /\ redis s' = redis s)
  /\ (let s' := web_post_request w cfg req room (new_handler store) in
      bus_messages s' = [] /\ redis s' = store
      /\ (passes_gate cfg req = true -> sent s' = Some (room_not_found_response [])))
  /\ (let s' := api_post_request w cfg req room (new_handler store) in
      bus_messages s' = [] /\ redis s' = store
      /\ (body req <> "" -> is_Some (json_loads w (body req)) ->
          sent s' = Some (room_not_found_response []))).
Proof.
  intros Hroom Hopen. split; [|split; [|split]].
  - eexists. split; [apply web_post_room_not_found; assumption|]. now cbn.
  - eexists. split; [apply api_post_room_not_found; assumption|]. now cbn.
  - destruct (web_request_room_not_found w cfg req room store Hroom) as (Ht & Hr & Hs).
    cbn zeta. unfold bus_messages. rewrite Ht. auto.
  - destruct (api_request_room_not_found w cfg req room store Hroom) as (Ht & Hr & Hs).
    cbn zeta. unfold bus_messages. rewrite Ht. auto.
Qed.

Lemma C1_witness :
  room_not_found demo_config (Some (u "nowhere")) = true
  /\ room_not_found demo_config (Some (u "staff")) = true
  /\ sent (web_post_request demo_world demo_config
             (demo_post (json_text [("content", "hello"); ("nickname", "alice")]))
             (u "nowhere") (new_handler ∅))
     = Some (room_not_found_response [])
  /\ sent (api_post_request demo_world demo_config
             (demo_api (json_text [("content", "hello")]) "s3cret" None)
             (u "staff") (new_handler ∅))
     = Some (room_not_found_response []).
Proof.
  split; [vm_compute; reflexivity|]. split; [vm_compute; reflexivity|].
  split.
  - refine (proj2 (proj2 (proj1 (proj2 (proj2
      (C1_unknown_room_is_not_published demo_world demo_config
         (demo_post (json_text [("content", "hello"); ("nickname", "alice")]))
         (u "nowhere") (new_handler ∅) ∅ _ _))))) _); vm_compute; reflexivity.
  - refine (proj2 (proj2 (proj2 (proj2 (proj2
      (C1_unknown_room_is_not_published demo_world demo_config
         (demo_api (json_text [("content", "hello")]) "s3cret" None)
         (u "staff") (new_handler ∅) ∅ _ _))))) _ _).
    + vm_compute; reflexivity.
    + reflexivity.
    + vm_compute. discriminate.
    + vm_compute. eauto.
Defined.

(** The room check is not the first check of a request: without a session
    the web post to an unknown room is answered 403 by [authenticated], and
    the API post with an empty body 400 by [prepare]. *)
Lemma C1_counterexample :
  room_not_found demo_config_oauth (Some (u "nowhere")) = true
  /\ sent (web_post_request demo_world demo_config_oauth
             (demo_post (json_text [("content", "hello"); ("nickname", "alice")]))
             (u "nowhere") (new_handler ∅))
     = Some forbidden
  /\ sent (api_post_request demo_world demo_config (demo_api "" "s3cret" None)
             (u "nowhere") (new_handler ∅))
     = Some empty_request.
Proof. vm_compute. repeat split; reflexivity. Qed.

(** ** Empty content *)

(** The web form returns after its 400: nothing reaches the bus. *)
Lemma web_post_empty_content (w : world) (cfg : config) (req : request)
  (room : pystr) (store : gmap pystr (list wire)) (items : list (pystr * pyval)) :
  passes_gate cfg req = true ->
  room_not_found cfg (Some room) = false ->
  web_post_flag cfg room = true ->
  json_loads w (body req) = Some (JObj items) ->
  truthy (default JNull (assoc (u "content") items)) = false ->
  let s' := web_post_request w cfg req room (new_handler store) in
  sent s' = Some empty_message_web /\ trace s' = [] /\ redis s' = store.
Proof.
  intros Hgate Hroom Hflag Hbody Hcontent.
  unfold web_post_request, execute, default_prepare, ret, authenticated.
  unfold passes_gate in Hgate. apply negb_true_iff in Hgate. rewrite Hgate.
  cbn [finished sent new_handler].
  unfold PostMessageHandler_post. rewrite Hroom, Hflag, Hbody. cbn [negb].
  unfold bind at 1. cbn [set_json_data modify new_handler].
  unfold bind at 1. cbn -[u truthy].
  rewrite Hcontent. cbn. repeat split; reflexivity.
Qed.

(** C2. The API path answers 400 to an empty content but does not return:
    control runs on to line 408 and the bus is called with the message. *)
Theorem C2_api_post_empty_content_reaches_bus (w : world) (cfg : config)
  (req : request) (room : pystr) (store : gmap pystr (list wire))
  (items : list (pystr * pyval)) (b : bool) :
  room_not_found cfg (Some room) = false ->
  mgr_auth w (token_id_of req) (token_key_of req) = true ->
  body req <> "" ->
  json_loads w (body req) = Some (JObj items) ->
  truthy (default JNull (assoc (u "content") items)) = false ->
  is_cmd w (default JNull (assoc (u "content") items)) = Some b ->
  let s' := api_post_request w cfg req room (new_handler store) in
  let apiname := mgr_get_name w (token_id_of req) in
  sent s' = Some empty_message_api
  /\ bus_messages s' =
       [BusCall (mkMessage (ChannelAPI apiname)
                           (default apiname (assoc (u "sender") items)) room
                           (default JNull (assoc (u "content") items))
                           (if b then Command else Text)
                           (now_date w) (now_time w) room)].
Proof.
  intros Hroom Hauth Hne Hbody Hcontent Hcmd.
  unfold api_post_request, execute, APIPostMessageHandler_prepare.
  destruct (body req) as [|c rest] eqn:Eb; [congruence|].
  rewrite Hbody. cbn [set_json_data modify new_handler finished sent].
  unfold APIPostMessageHandler_post. rewrite Hroom.
  unfold APIRequestHandler_auth. cbn zeta.
  unfold bind at 1. unfold bind at 1. cbn [log modify].
  rewrite Hauth. cbn [ret].
  unfold bind at 1. cbn -[u truthy].
  unfold bind at 1. cbn -[u truthy].
  rewrite Hcontent. cbn -[u].
  unfold call_is_cmd. rewrite Hcmd. cbn -[u].
  split; reflexivity.
Qed.

Lemma C2_failing_input :
  let req := demo_api (json_text [("content", "")]) "s3cret" None in
  let s' := api_post_request demo_world demo_config req (u "general") (new_handler ∅) in
  sent s' = Some empty_message_api
  /\ bus_messages s' =
       [BusCall (mkMessage (ChannelAPI (JStr (u "app"))) (JStr (u "app")) (u "general")
                           (JStr []) Text (u "2016-05-04") (u "12:00:00") (u "general"))].
Proof.
  apply (C2_api_post_empty_content_reaches_bus demo_world demo_config
           (demo_api (json_text [("content", "")]) "s3cret" None)
           (u "general") ∅ [(u "content", JStr [])] false);
    try (vm_compute; reflexivity).
  vm_compute. discriminate.
Defined.

(** ** The sender of a web post *)

Lemma lstrip_blank (s : pystr) :
  lstrip s = [] <-> forallb isspace s = true.
Proof.
  induction s as [|c s IH]; cbn; [tauto|].
  destruct (isspace c); cbn; [exact IH|]. split; discriminate.
Qed.

Lemma lstrip_head (s : pystr) (c : N) (rest : pystr) :
  lstrip s = c :: rest -> isspace c = false.
Proof.
  induction s as [|x s IH]; cbn; [discriminate|].
  destruct (isspace x) eqn:E; [exact IH|]. intros [= <- _]. exact E.
Qed.

(** A sender is blank after stripping exactly when it consists of
    whitespace only. *)
Lemma strip_blank (s : pystr) :
  strip s = [] <-> forallb isspace s = true.
Proof.
  unfold strip, rstrip. split.
  - intros H. apply lstrip_blank.
    destruct (lstrip s) as [|c t] eqn:E; [reflexivity|exfalso].
    apply (f_equal (@rev N)) in H. rewrite rev_involutive in H. cbn [rev] in H.
    apply lstrip_blank in H. rewrite forallb_forall in H.
    specialize (H c). rewrite (lstrip_head _ _ _ E) in H.
    enough (false = true) by discriminate. apply H.
    apply in_or_app. right. now left.
  - intros H. apply lstrip_blank in H. now rewrite H.
Qed.

(** Digits and ASCII letters are word characters whatever the Unicode
    table says beyond ASCII. *)
Lemma is_word_ascii_alnum (ua : N -> bool) (c : N) :
  ascii_alnum c = true -> is_word ua c = true.
Proof.
  intros H. unfold is_word, isalnum.
  assert ((c <? 128) = true) as Hlt.
  { unfold ascii_alnum, in_range in H. apply N.ltb_lt.
    repeat (apply orb_true_iff in H; destruct H as [H|H]);
      apply andb_true_iff in H; destruct H as [_ H]; apply N.leb_le in H; lia. }
  now rewrite Hlt, H.
Qed.

(** What the handler does once a web post has a room, a parsed body and a
    content: the three ways out of lines 231-254. *)
Lemma web_post_sender_check (w : world) (cfg : config) (req : request)
  (room : pystr) (store : gmap pystr (list wire)) (items : list (pystr * pyval))
  (nick : pystr) :
  passes_gate cfg req = true ->
  room_not_found cfg (Some room) = false ->
  web_post_flag cfg room = true ->
  json_loads w (body req) = Some (JObj items) ->
  truthy (default JNull (assoc (u "content") items)) = true ->
  default (JStr []) (assoc (u "nickname") items) = JStr nick ->
  let s' := web_post_request w cfg req room (new_handler store) in
  let content := default JNull (assoc (u "content") items) in
  let sender := strip nick in
  (sender = [] -> sent s' = Some nickname_unset /\ trace s' = [])
  /\ (sender <> [] -> match_word_start (unicode_alnum w) sender = false ->
      sent s' = Some invalid_char /\ trace s' = [])
  /\ (match_word_start (unicode_alnum w) sender = true ->
      forall b, is_cmd w content = Some b ->
      sent s' = Some posted_ok
      /\ trace s' = [BusPublish (mkMessage ChannelWeb (JStr sender) room content
                                           (if b then Command else Text)
                                           (now_date w) (now_time w) room)]).
Proof.
  intros Hgate Hroom Hflag Hbody Hcontent Hnick.
  unfold web_post_request, execute, default_prepare, ret, authenticated.
  unfold passes_gate in Hgate. apply negb_true_iff in Hgate. rewrite Hgate.
  cbn [finished sent new_handler].
  unfold PostMessageHandler_post. rewrite Hroom, Hflag, Hbody. cbn [negb].
  unfold bind at 1. cbn [set_json_data modify new_handler].
  unfold bind at 1. cbn -[u truthy].
  rewrite Hcontent. cbn -[u truthy strip]. rewrite Hnick.
  cbn -[u strip match_word_start].
  destruct (strip nick) as [|c rest] eqn:Es.
  - cbn. split; [split; reflexivity|]. split; [congruence|discriminate].
  - cbn -[u match_word_start]. split; [discriminate|].
    destruct (match_word_start (unicode_alnum w) (c :: rest)) eqn:Em.
    + split; [discriminate|]. intros _ b Hb.
      cbn -[u]. unfold call_is_cmd. rewrite Hb. cbn -[u]. split; reflexivity.
    + split; [|discriminate]. intros _ _. cbn. split; reflexivity.
Qed.

(** C3, as the code has it.  A web post that reaches the sender check is
    answered 400 when the nickname is blank after stripping or does not
    start with a word character, and nothing is published; otherwise it is
    published under the stripped nickname.  A digit is a word character:
    ["3"] and ["bot1"] pass the check, ["#bot"] does not. *)
Theorem C3_sender_check (w : world) (cfg : config) (req : request)
  (room : pystr) (store : gmap pystr (list wire)) (items : list (pystr * pyval))
  (nick : pystr) :
  passes_gate cfg req = true ->
  room_not_found cfg (Some room) = false ->
  web_post_flag cfg room = true ->
  json_loads w (body req) = Some (JObj items) ->
  truthy (default JNull (assoc (u "content") items)) = true ->
  default (JStr []) (assoc (u "nickname") items) = JStr nick ->
  let s' := web_post_request w cfg req room (new_handler store) in
  let content := default JNull (assoc (u "content") items) in
  let sender := strip nick in
  let word := match_word_start (unicode_alnum w) in
  (sender = [] -> sent s' = Some nickname_unset /\ bus_messages s' = [])
  /\ (sender <> [] -> word sender = false ->
      sent s' = Some invalid_char /\ bus_messages s' = [])
  /\ (word sender = true -> forall b, is_cmd w content = Some b ->
      sent s' = Some posted_ok
      /\ bus_messages s' =
           [BusPublish (mkMessage ChannelWeb (JStr sender) room content
                                  (if b then Command else Text)
                                  (now_date w) (now_time w) room)])
  /\ (word (strip (u "#bot")) = false /\ strip (u "#bot") <> [])
  /\ word (strip (u "3")) = true
  /\ word (strip (u "bot1")) = true.
Proof.
  intros Hgate Hroom Hflag Hbody Hcontent Hnick.
  destruct (web_post_sender_check w cfg req room store items nick
              Hgate Hroom Hflag Hbody Hcontent Hnick) as (Hblank & Hbad & Hok).
  cbn zeta in *. unfold bus_messages.
  split; [|split; [|split; [|split; [|split]]]].
  - intros H. destruct (Hblank H) as [-> ->]. split; reflexivity.
  - intros H1 H2. destruct (Hbad H1 H2) as [-> ->]. split; reflexivity.
  - intros H b Hb. destruct (Hok H b Hb) as [-> ->]. split; reflexivity.
  - split; [reflexivity|discriminate].
  - reflexivity.
  - reflexivity.
Qed.

Lemma C3_witness :
  let post nick :=
    web_post_request demo_world demo_config
      (demo_post (json_text [("content", "hello"); ("nickname", nick)]))
      (u "general") (new_handler ∅) in
  (sent (post "#bot") = Some invalid_char /\ bus_messages (post "#bot") = [])
  /\ sent (post "bot1") = Some posted_ok.
Proof.
  split.
  - refine (proj1 (proj2 (C3_sender_check demo_world demo_config
      (demo_post (json_text [("content", "hello"); ("nickname", "#bot")]))
      (u "general") ∅ [(u "content", JStr (u "hello")); (u "nickname", JStr (u "#bot"))]
      (u "#bot") _ _ _ _ _ _)) _ _); try (vm_compute; reflexivity).
    vm_compute. discriminate.
  - refine (proj1 (proj1 (proj2 (proj2 (C3_sender_check demo_world demo_config
      (demo_post (json_text [("content", "hello"); ("nickname", "bot1")]))
      (u "general") ∅ [(u "content", JStr (u "hello")); (u "nickname", JStr (u "bot1"))]
      (u "bot1") _ _ _ _ _ _))) _ false _)); vm_compute; reflexivity.
Defined.

(** A web post signed ["3"] is not refused as an invalid sender: a digit
    is a word character, and the post is answered 200 and published under
    that sender.  And a sender that would be refused is not looked at when
    an earlier check ends the request: to an unknown room, the post signed
    ["#bot"] is answered 404. *)
Lemma C3_counterexample :
  let post nick room :=
    web_post_request demo_world demo_config
      (demo_post (json_text [("content", "hello"); ("nickname", nick)]))
      (u room) (new_handler ∅) in
  sent (post "3" "general") = Some posted_ok
  /\ bus_messages (post "3" "general") =
       [BusPublish (mkMessage ChannelWeb (JStr (u "3")) (u "general") (JStr (u "hello"))
                              Text (u "2016-05-04") (u "12:00:00") (u "general"))]
  /\ sent (post "#bot" "nowhere") = Some (room_not_found_response []).
Proof. vm_compute. repeat split; reflexivity. Qed.

(** ** The long-polling queue *)

Lemma mapM_loads (w : world) (raw : list wire) (js : list pyval) (s : state) :
  Forall2 (fun x j => json_loads w x = Some j) raw js ->
  mapM (loads w) raw s = (Ok js, s).
Proof.
  induction 1 as [|x j raw js Hx _ IH]; cbn [mapM]; [reflexivity|].
  unfold bind at 1. unfold loads at 1. rewrite Hx. cbn [ret].
  unfold bind at 1. rewrite IH. reflexivity.
Qed.

Lemma mapM_loads_state (w : world) (raw : list wire) (s : state) :
  snd (mapM (loads w) raw s) = s.
Proof.
  induction raw as [|x raw IH]; cbn [mapM]; [reflexivity|].
  unfold bind at 1. unfold loads at 1.
  destruct (json_loads w x); cbn [ret raise]; [|reflexivity].
  unfold bind at 1.
  destruct (mapM (loads w) raw s) as [[js|e] s'] eqn:E; cbn in *; congruence.
Qed.

Lemma filterM_room_is (r : pystr) (js : list pyval) (s : state) :
  Forall (fun j => is_Some (room_field j)) js ->
  filterM (room_is r) js s = (Ok (List.filter (room_matches r) js), s).
Proof.
  induction 1 as [|j js [v Hv] _ IH]; cbn; [reflexivity|].
  unfold bind at 1. unfold room_is at 1, room_of, bind at 1, room_matches.
  destruct j; cbn in Hv; try discriminate. cbn -[u]. rewrite Hv. cbn -[u].
  unfold bind. rewrite IH. reflexivity.
Qed.

Lemma filterM_room_is_state (r : pystr) (js : list pyval) (s : state) :
  snd (filterM (room_is r) js s) = s.
Proof.
  induction js as [|j js IH]; cbn; [reflexivity|].
  unfold bind at 1. unfold room_is at 1, room_of, bind at 1.
  destruct j; cbn -[u]; try reflexivity.
  destruct (assoc (u "room") items); cbn -[u]; [|reflexivity].
  unfold bind. destruct (filterM (room_is r) js s) as [[l|e] s'] eqn:E;
    cbn in *; congruence.
Qed.

Lemma LLEN_zero (q : pystr) (store : gmap pystr (list wire)) :
  LRANGE_all q store = [] -> (0 <? LLEN q store) = false.
Proof. unfold LLEN, LRANGE_all. now intros ->. Qed.

Lemma LLEN_pos (q : pystr) (store : gmap pystr (list wire)) (x : wire) (l : list wire) :
  LRANGE_all q store = x :: l -> (0 <? LLEN q store) = true.
Proof. unfold LLEN, LRANGE_all. intros ->. apply N.ltb_lt. cbn [length]. lia. Qed.

Lemma LPOP_empty (q : pystr) (store : gmap pystr (list wire)) :
  LRANGE_all q store = [] -> LPOP q store = None.
Proof.
  unfold LPOP, LRANGE_all. destruct (store !! q) as [[|x l]|]; cbn; congruence.
Qed.

Lemma LRANGE_all_DEL (q : pystr) (store : gmap pystr (list wire)) :
  LRANGE_all q (DEL q store) = [].
Proof. unfold LRANGE_all, DEL. now rewrite lookup_delete_eq. Qed.

(** On an empty queue the handler waits: it returns the entry that
    arrives, if one does, and the store is as before. *)
Lemma drain_queue_waiting (w : world) (token_id : pystr) (arrival : option wire)
  (s : state) :
  LRANGE_all (queue_key w token_id) (redis s) = [] ->
  drain_queue w token_id arrival s =
    match arrival with
    | Some a => bind (loads w a) (fun m => ret [m]) s
    | None => (Ok [], s)
    end.
Proof.
  intros H. unfold drain_queue, llen, blpop, get_state.
  unfold bind, ret. cbv beta zeta.
  rewrite (LLEN_zero _ _ H). cbv beta iota. rewrite (LPOP_empty _ _ H).
  destruct arrival; reflexivity.
Qed.

(** A queue nobody pushed to yields nothing, and the wait times out. *)
Lemma drain_queue_idle (w : world) (token_id : pystr) (s : state) :
  LRANGE_all (queue_key w token_id) (redis s) = [] ->
  drain_queue w token_id None s = (Ok [], s).
Proof. intros H. now rewrite drain_queue_waiting. Qed.

(** With entries in the queue, all of them are read and the key is deleted
    before any of them is decoded. *)
Lemma drain_queue_pending (w : world) (token_id : pystr) (arrival : option wire)
  (s : state) (x : wire) (l : list wire) :
  LRANGE_all (queue_key w token_id) (redis s) = x :: l ->
  drain_queue w token_id arrival s =
    mapM (loads w) (x :: l) (with_redis (DEL (queue_key w token_id) (redis s)) s).
Proof.
  intros H. unfold drain_queue, llen, lrange_all, delete_key, get_state,
    set_redis, modify.
  unfold bind, ret. cbv beta zeta.
  rewrite (LLEN_pos _ _ _ _ H). cbv beta iota. rewrite H. reflexivity.
Qed.

(** Whatever a drain returns, it leaves nothing behind in the queue. *)
Lemma drain_queue_leaves_nothing (w : world) (token_id : pystr)
  (arrival : option wire) (s : state) :
  LRANGE_all (queue_key w token_id) (redis (snd (drain_queue w token_id arrival s))) = [].
Proof.
  destruct (LRANGE_all (queue_key w token_id) (redis s)) as [|x l] eqn:E.
  - rewrite (drain_queue_waiting _ _ _ _ E).
    destruct arrival as [a|]; [|exact E].
    unfold bind, loads, ret, raise. destruct (json_loads w a); exact E.
  - rewrite (drain_queue_pending _ _ _ _ _ _ E), mapM_loads_state.
    apply LRANGE_all_DEL.
Qed.

(** C4. On a token without prior activity the drain returns nothing.
    After one [Enqueue] the queue holds that entry alone; the drain then
    returns it, decoded, and removes it, so the next drain returns nothing.
    In sequential execution a drain never leaves behind what it returned. *)
Theorem C4_drain_delivers_once (w : world) (token_id : pystr) (m : wire)
  (j : pyval) (s : state) :
  redis s !! queue_key w token_id = None ->
  json_loads w m = Some j ->
  let q := queue_key w token_id in
  drain_queue w token_id None s = (Ok [], s)
  /\ LRANGE_all q (Enqueue w token_id m (redis s)) = [m]
  /\ (forall store : gmap pystr (list wire),
        LRANGE_all q store = [m] ->
        let s1 := with_redis (DEL q store) s in
        drain_queue w token_id None (with_redis store s) = (Ok [j], s1)
        /\ LRANGE_all q (redis s1) = []
        /\ drain_queue w token_id None s1 = (Ok [], s1))
  /\ (forall (arrival : option wire) (s0 : state),
        let s1 := snd (drain_queue w token_id arrival s0) in
        drain_queue w token_id None s1 = (Ok [], s1)).
Proof.
  intros Hidle Hm. cbv zeta. split; [|split; [|split]].
  - apply drain_queue_idle. unfold LRANGE_all. now rewrite Hidle.
  - unfold LRANGE_all, Enqueue, RPUSH. now rewrite lookup_insert_eq, Hidle.
  - intros store Hstore.
    assert (LRANGE_all (queue_key w token_id)
              (redis (with_redis (DEL (queue_key w token_id) store) s)) = []) as Hgone
      by apply LRANGE_all_DEL.
    split; [|split; [exact Hgone|now apply drain_queue_idle]].
    rewrite (drain_queue_pending w token_id None _ m []) by exact Hstore.
    cbn [mapM]. unfold bind, loads, ret. now rewrite Hm.
  - intros arrival s0. apply drain_queue_idle. apply drain_queue_leaves_nothing.
Qed.

Lemma C4_witness :
  let m := json_text [("room", "general"); ("content", "hello")] in
  let j := json_object [("room", "general"); ("content", "hello")] in
  drain_queue demo_world (u "tok1") None (new_handler ∅) = (Ok [], new_handler ∅)
  /\ drain_queue demo_world (u "tok1") None
       (new_handler (Enqueue demo_world (u "tok1") m ∅))
     = (Ok [j], new_handler ∅)
  /\ drain_queue demo_world (u "tok1") None (new_handler ∅) = (Ok [], new_handler ∅).
Proof.
  pose proof (C4_drain_delivers_once demo_world (u "tok1")
                (json_text [("room", "general"); ("content", "hello")])
                (json_object [("room", "general"); ("content", "hello")])
                (new_handler ∅) eq_refl eq_refl) as (H1 & H2 & H3 & _).
  specialize (H3 _ H2). cbv zeta in H3. destruct H3 as (H3 & _ & H4).
  split; [exact H1|]. split; [exact H3|exact H4].
Defined.

(** An admitted long poll is the drain followed by the room filter. *)
Lemma long_poll_admitted (w : world) (cfg : config) (req : request)
  (arrival : option wire) (store : gmap pystr (list wire)) (r : pystr) :
  mgr_auth w (token_id_of req) (token_key_of req) = true ->
  arg_room req = Some r ->
  r <> [] ->
  room_not_found cfg (Some r) = false ->
  long_poll_request w cfg req arrival (new_handler store) =
    match drain_queue w (token_id_of req) arrival (polling req store) with
    | (Ok msgs, s1) =>
        match filterM (room_is r) msgs s1 with
        | (Ok kept, s2) =>
            match bind (write_json 200 [("messages", JArr kept)])
                       (fun _ => finish None) s2 with
            | (Ok _, s3) => auto_finish s3
            | (Raise e, s3) => handle_request_exception e s3
            end
        | (Raise e, s2) => handle_request_exception e s2
        end
    | (Raise e, s1) => handle_request_exception e s1
    end.
Proof.
  intros Hauth Hroom Hr Hfound.
  unfold long_poll_request, execute, default_prepare.
  cbn [ret finished sent new_handler].
  unfold APILongPollingHandler_get, APIRequestHandler_auth. cbv zeta.
  unfold bind at 1. unfold bind at 1. cbn [log modify new_handler app status_code
    write_buffer sent json_data trace redis].
  rewrite Hauth. cbn [ret]. rewrite Hroom, Hfound.
  destruct r as [|c r]; [congruence|].
  unfold bind at 1. fold (polling req store).
  destruct (drain_queue w (token_id_of req) arrival (polling req store))
    as [[msgs|e] s1]; [|reflexivity].
  unfold bind at 1.
  destruct (filterM (room_is (c :: r)) msgs s1) as [[kept|e] s2]; [|reflexivity].
  reflexivity.
Qed.

(** The answer of an admitted long poll whose queue fragment returned
    [msgs], all of them objects with a room. *)
Lemma long_poll_answer (w : world) (cfg : config) (req : request)
  (arrival : option wire) (store store' : gmap pystr (list wire)) (r : pystr)
  (msgs : list pyval) :
  mgr_auth w (token_id_of req) (token_key_of req) = true ->
  arg_room req = Some r ->
  r <> [] ->
  room_not_found cfg (Some r) = false ->
  drain_queue w (token_id_of req) arrival (polling req store)
    = (Ok msgs, with_redis store' (polling req store)) ->
  Forall (fun j => is_Some (room_field j)) msgs ->
  let s' := long_poll_request w cfg req arrival (new_handler store) in
  sent s' = Some (messages_response (List.filter (room_matches r) msgs))
  /\ redis s' = store'.
Proof.
  intros Hauth Hroom Hr Hfound Hdrain Hrooms.
  cbv zeta. rewrite (long_poll_admitted w cfg req arrival store r) by assumption.
  rewrite Hdrain, filterM_room_is by assumption.
  split; reflexivity.
Qed.

(** Pending entries are gone from the store once the request is over,
    whether or not they decode and whatever their room. *)
Lemma long_poll_clears_queue (w : world) (cfg : config) (req : request)
  (arrival : option wire) (store : gmap pystr (list wire)) (r : pystr)
  (x : wire) (l : list wire) :
  mgr_auth w (token_id_of req) (token_key_of req) = true ->
  arg_room req = Some r ->
  r <> [] ->
  room_not_found cfg (Some r) = false ->
  LRANGE_all (queue_key w (token_id_of req)) store = x :: l ->
  redis (long_poll_request w cfg req arrival (new_handler store))
    = DEL (queue_key w (token_id_of req)) store.
Proof.
  intros Hauth Hroom Hr Hfound Hq.
  rewrite (long_poll_admitted w cfg req arrival store r) by assumption.
  rewrite (drain_queue_pending w _ arrival (polling req store) x l) by exact Hq.
  set (s0 := with_redis _ (polling req store)).
  pose proof (mapM_loads_state w (x :: l) s0) as H1.
  destruct (mapM (loads w) (x :: l) s0) as [[msgs|e] s1]; cbn [snd] in H1; subst s1;
    [|reflexivity].
  pose proof (filterM_room_is_state r msgs s0) as H2.
  destruct (filterM (room_is r) msgs s0) as [[kept|e] s2]; cbn [snd] in H2; subst s2;
    reflexivity.
Qed.

Lemma auth_refused (w : world) (req : request) (s : state) :
  mgr_auth w (token_id_of req) (token_key_of req) = false ->
  APIRequestHandler_auth w req s =
    (Ok None,
     mkState 403 (write_buffer s) (sent s) (json_data s)
             (trace s ++ [MgrAuth (token_id_of req) (token_key_of req)]) (redis s)).
Proof.
  intros H. unfold APIRequestHandler_auth. cbv zeta.
  unfold bind, log, modify, set_status, ret. now rewrite H.
Qed.

(** A drain touches nothing but the store, and leaves the queue empty. *)
Lemma drain_queue_frame (w : world) (token_id : pystr) (arrival : option wire)
  (s : state) :
  exists store' : gmap pystr (list wire),
    snd (drain_queue w token_id arrival s) = with_redis store' s
    /\ LRANGE_all (queue_key w token_id) store' = [].
Proof.
  destruct (LRANGE_all (queue_key w token_id) (redis s)) as [|x l] eqn:E.
  - exists (redis s). split; [|exact E].
    rewrite (drain_queue_waiting _ _ _ _ E).
    destruct arrival as [a|]; [|now destruct s].
    unfold bind, loads, ret, raise. destruct (json_loads w a); now destruct s.
  - exists (DEL (queue_key w token_id) (redis s)). split; [|apply LRANGE_all_DEL].
    rewrite (drain_queue_pending _ _ _ _ _ _ E). apply mapM_loads_state.
Qed.

Lemma filterM_room_is_kept (r : pystr) (msgs kept : list pyval) (s s2 : state) :
  filterM (room_is r) msgs s = (Ok kept, s2) ->
  Forall (fun m => room_matches r m = true) kept.
Proof.
  revert kept s2. induction msgs as [|m msgs IH]; intros kept s2; cbn [filterM].
  - unfold ret. intros [= <- _]. constructor.
  - unfold bind at 1. unfold room_is at 1, room_of, bind at 1.
    destruct m as [| | | | |items]; try discriminate.
    destruct (assoc (u "room") items) as [v|] eqn:Ev; try discriminate.
    unfold ret at 1 2. unfold bind at 1.
    destruct (filterM (room_is r) msgs s) as [[ys|e] s'] eqn:Ef; try discriminate.
    unfold ret. intros [= <- _]. specialize (IH ys s' eq_refl).
    destruct (eq_str v r) eqn:Eq; [|exact IH].
    constructor; [|exact IH]. unfold room_matches, room_field. now rewrite Ev.
Qed.

(** The two ways a long poll is turned away. *)
Lemma long_poll_refused (w : world) (cfg : config) (req : request)
  (arrival : option wire) (store : gmap pystr (list wire)) :
  mgr_auth w (token_id_of req) (token_key_of req) = false ->
  long_poll_request w cfg req arrival (new_handler store) =
    mkState 403 [Plain "Invalid Token"] (Some (invalid_token [])) None
            [MgrAuth (token_id_of req) (token_key_of req)] store.
Proof.
  intros Hauth. unfold long_poll_request, execute, default_prepare.
  cbn [ret finished sent new_handler].
  unfold APILongPollingHandler_get. unfold bind at 1.
  rewrite (auth_refused w req _ Hauth). reflexivity.
Qed.

Lemma long_poll_room_not_found (w : world) (cfg : config) (req : request)
  (arrival : option wire) (store : gmap pystr (list wire)) :
  mgr_auth w (token_id_of req) (token_key_of req) = true ->
  room_not_found cfg (arg_room req) = true ->
  long_poll_request w cfg req arrival (new_handler store) =
    mkState 404 [Plain "Room not found"] (Some (room_not_found_response [])) None
            [MgrAuth (token_id_of req) (token_key_of req)] store.
Proof.
  intros Hauth Hfound. unfold long_poll_request, execute, default_prepare.
  cbn [ret finished sent new_handler].
  unfold APILongPollingHandler_get, APIRequestHandler_auth. cbv zeta.
  unfold bind at 1. unfold bind at 1. cbn [log modify new_handler].
  rewrite Hauth. cbn [ret]. rewrite Hfound. reflexivity.
Qed.

(** A long poll with a room filter removes nothing or everything from
    the queue; whenever it is answered with messages, they all carry the
    requested room, and the queue holds nothing more. *)
Lemma long_poll_messages (w : world) (cfg : config) (req : request)
  (arrival : option wire) (store : gmap pystr (list wire)) (r : pystr) :
  arg_room req = Some r ->
  r <> [] ->
  let s' := long_poll_request w cfg req arrival (new_handler store) in
  (redis s' = store \/ LRANGE_all (queue_key w (token_id_of req)) (redis s') = [])
  /\ (forall msgs : list pyval,
        sent s' = Some (messages_response msgs) ->
        Forall (fun m => room_matches r m = true) msgs
        /\ LRANGE_all (queue_key w (token_id_of req)) (redis s') = []).
Proof.
  intros Hroom Hr. cbv zeta.
  destruct (mgr_auth w (token_id_of req) (token_key_of req)) eqn:Hauth.
  2:{ rewrite (long_poll_refused w cfg req arrival store Hauth).
      split; [now left|intros msgs H; discriminate H]. }
  destruct (room_not_found cfg (Some r)) eqn:Hfound.
  { rewrite (long_poll_room_not_found w cfg req arrival store Hauth)
      by now rewrite Hroom.
    split; [now left|intros msgs H; discriminate H]. }
  rewrite (long_poll_admitted w cfg req arrival store r) by assumption.
  destruct (drain_queue_frame w (token_id_of req) arrival (polling req store))
    as (store' & Hframe & Hempty).
  destruct (drain_queue w (token_id_of req) arrival (polling req store))
    as [[got|e] s1]; cbn [snd] in Hframe; subst s1;
    [|cbn; split; [now right|intros msgs H; discriminate H]].
  pose proof (filterM_room_is_state r got (with_redis store' (polling req store))) as Hs.
  destruct (filterM (room_is r) got (with_redis store' (polling req store)))
    as [[kept|e] s2] eqn:Hkept; cbn [snd] in Hs; subst s2;
    [|cbn; split; [now right|intros msgs H; discriminate H]].
  cbn. split; [now right|]. intros msgs [= <-]. split; [|exact Hempty].
  exact (filterM_room_is_kept _ _ _ _ _ Hkept).
Qed.

(** C5. A long poll with a room filter reads and deletes the whole queue
    first and filters afterwards.  It removes nothing or everything from
    the queue, and whenever it is answered with messages these carry the
    requested room and the queue holds nothing more, so that the drain of
    the next poll can only return an entry that arrives later.  When the
    request is admitted and entries are pending, all of them leave the
    store, the answer is those of the requested room, the others are
    neither answered nor kept, and the next poll on the token finds
    nothing. *)
Theorem C5_filter_after_removal (w : world) (cfg : config) (req : request)
  (store : gmap pystr (list wire)) (arrival : option wire) (r : pystr) :
  arg_room req = Some r ->
  r <> [] ->
  let q := queue_key w (token_id_of req) in
  let s' := long_poll_request w cfg req arrival (new_handler store) in
  let s'' := long_poll_request w cfg req None (new_handler (redis s')) in
  (redis s' = store \/ LRANGE_all q (redis s') = [])
  /\ (forall msgs : list pyval,
        sent s' = Some (messages_response msgs) ->
        Forall (fun m => room_matches r m = true) msgs
        /\ LRANGE_all q (redis s') = []
        /\ (forall later : option wire,
              drain_queue w (token_id_of req) later (polling req (redis s')) =
                match later with
                | Some a => bind (loads w a) (fun m => ret [m]) (polling req (redis s'))
                | None => (Ok [], polling req (redis s'))
                end))
  /\ (mgr_auth w (token_id_of req) (token_key_of req) = true ->
      room_not_found cfg (Some r) = false ->
      forall (x : wire) (l : list wire),
        LRANGE_all q store = x :: l ->
        redis s' = DEL q store
        /\ (forall js : list pyval,
              Forall2 (fun e j => json_loads w e = Some j) (x :: l) js ->
              Forall (fun j => is_Some (room_field j)) js ->
              sent s' = Some (messages_response (List.filter (room_matches r) js))
              /\ (forall j, In j js -> room_matches r j = false ->
                  ~ In j (List.filter (room_matches r) js)))
        /\ sent s'' = Some (messages_response [])
        /\ redis s'' = redis s').
Proof.
  intros Hroom Hr. cbv zeta.
  destruct (long_poll_messages w cfg req arrival store r Hroom Hr) as [Hall Hmsgs].
  split; [exact Hall|]. split.
  { intros msgs Hsent. destruct (Hmsgs msgs Hsent) as [Hkept Hempty].
    split; [exact Hkept|]. split; [exact Hempty|].
    intros later. apply drain_queue_waiting. exact Hempty. }
  clear Hall Hmsgs. intros Hauth Hfound x l Hq.
  rewrite (long_poll_clears_queue w cfg req arrival store r x l) by assumption.
  split; [reflexivity|]. split.
  - intros js Hjs Hrooms. split.
    + apply (long_poll_answer w cfg req arrival store
               (DEL (queue_key w (token_id_of req)) store) r js); try assumption.
      rewrite (drain_queue_pending w _ arrival (polling req store) x l) by exact Hq.
      now apply mapM_loads.
    + intros j _ Hj Hin. apply filter_In in Hin. destruct Hin as [_ Hin]. congruence.
  - apply (long_poll_answer w cfg req None
             (DEL (queue_key w (token_id_of req)) store)
             (DEL (queue_key w (token_id_of req)) store) r []); try assumption.
    + rewrite drain_queue_idle by apply LRANGE_all_DEL. reflexivity.
    + constructor.
Qed.

Lemma C5_witness :
  let dev := json_text [("room", "dev"); ("content", "patch")] in
  let gen := json_text [("room", "general"); ("content", "hello")] in
  let store := Enqueue demo_world (u "tok1") gen (Enqueue demo_world (u "tok1") dev ∅) in
  let req := demo_api "" "s3cret" (Some (u "general")) in
  let s' := long_poll_request demo_world demo_config req None (new_handler store) in
  sent s' = Some (messages_response
                    [json_object [("room", "general"); ("content", "hello")]])
  /\ redis s' = ∅
  /\ sent (long_poll_request demo_world demo_config req None (new_handler (redis s')))
     = Some (messages_response []).
Proof.
  cbv zeta.
  pose proof (C5_filter_after_removal demo_world demo_config
                (demo_api "" "s3cret" (Some (u "general")))
                (Enqueue demo_world (u "tok1")
                   (json_text [("room", "general"); ("content", "hello")])
                   (Enqueue demo_world (u "tok1")
                      (json_text [("room", "dev"); ("content", "patch")]) ∅))
                None (u "general") eq_refl ltac:(discriminate)) as H.
  cbv zeta in H. destruct H as (_ & _ & H).
  specialize (H eq_refl ltac:(vm_compute; reflexivity)
                (json_text [("room", "dev"); ("content", "patch")])
                [json_text [("room", "general"); ("content", "hello")]]
                ltac:(vm_compute; reflexivity)).
  destruct H as (Hredis & Hsent & Hnext & _).
  specialize (Hsent [json_object [("room", "dev"); ("content", "patch")];
                     json_object [("room", "general"); ("content", "hello")]]).
  destruct Hsent as [Hsent _].
  { repeat constructor. }
  { repeat constructor; vm_compute; eauto. }
  split; [exact Hsent|]. split; [rewrite Hredis; vm_compute; reflexivity|exact Hnext].
Defined.

(** ** Token admission *)

Lemma bus_messages_app (s : state) (t : list event) :
  List.filter handed_to_bus (trace s ++ t)
  = bus_messages s ++ List.filter handed_to_bus t.
Proof. unfold bus_messages. apply List.filter_app. Qed.

Lemma api_post_refused (w : world) (cfg : config) (req : request) (room : pystr)
  (s : state) :
  mgr_auth w (token_id_of req) (token_key_of req) = false ->
  room_not_found cfg (Some room) = false ->
  finished s = false ->
  APIPostMessageHandler_post w cfg req room s =
    (Ok tt,
     mkState 403 (write_buffer s ++ [Plain "Invalid Token"])
             (Some (invalid_token (write_buffer s))) (json_data s)
             (trace s ++ [MgrAuth (token_id_of req) (token_key_of req)]) (redis s)).
Proof.
  intros Hauth Hroom Hopen. unfold APIPostMessageHandler_post. rewrite Hroom.
  unfold bind at 1. rewrite (auth_refused w req s Hauth).
  rewrite finish_open by exact Hopen. reflexivity.
Qed.

(** C7, as the code has it.  An API post whose token does not authenticate
    never reaches the bus and leaves the store alone, whatever else the
    request holds; [auth] sets status 403 and returns [None], and the
    [post] method, past its room check, finishes with 403 "Invalid Token"
    before it reads the content or builds a message. *)
Theorem C7_bad_token_is_not_published (w : world) (cfg : config) (req : request)
  (room : pystr) (s : state) (store : gmap pystr (list wire)) :
  mgr_auth w (token_id_of req) (token_key_of req) = false ->
  (exists s', APIRequestHandler_auth w req s = (Ok None, s')
     /\ status_code s' = 403%nat /\ bus_messages s' = bus_messages s
     /\ redis s' = redis s)
  /\ (let s' := api_post_request w cfg req room (new_handler store) in
      bus_messages s' = [] /\ redis s' = store
      /\ (body req <> "" -> is_Some (json_loads w (body req)) ->
          room_not_found cfg (Some room) = false ->
          sent s' = Some (invalid_token [])))
  /\ (room_not_found cfg (Some room) = false -> finished s = false ->
      exists s', APIPostMessageHandler_post w cfg req room s = (Ok tt, s')
        /\ sent s' = Some (invalid_token (write_buffer s))
        /\ bus_messages s' = bus_messages s /\ redis s' = redis s).
Proof.
  intros Hauth. split; [|split].
  - eexists. split; [apply auth_refused; exact Hauth|].
    cbn [status_code redis]. unfold bus_messages at 1. cbn [trace].
    rewrite bus_messages_app, app_nil_r. auto.
  - cbv zeta. unfold api_post_request, execute, APIPostMessageHandler_prepare.
    destruct (body req) as [|c rest] eqn:Hbody.
    { cbn. repeat split; intros; congruence. }
    destruct (json_loads w (String c rest)) as [j|] eqn:Hj.
    2:{ cbn. repeat split. intros _ [j Hsome]. discriminate. }
    cbn [set_json_data modify new_handler finished sent].
    destruct (room_not_found cfg (Some room)) eqn:Hroom.
    + rewrite api_post_room_not_found by (exact Hroom || reflexivity).
      cbn. repeat split. discriminate.
    + rewrite api_post_refused by (assumption || reflexivity).
      cbn. repeat split.
  - intros Hroom Hopen. eexists. split; [apply api_post_refused; assumption|].
    cbn [sent redis]. unfold bus_messages at 1. cbn [trace].
    rewrite bus_messages_app, app_nil_r. auto.
Qed.

Lemma C7_witness :
  let s' := api_post_request demo_world demo_config
              (demo_api (json_text [("content", "hello")]) "guess" None)
              (u "general") (new_handler ∅) in
  sent s' = Some (invalid_token []) /\ bus_messages s' = [] /\ redis s' = ∅.
Proof.
  pose proof (C7_bad_token_is_not_published demo_world demo_config
                (demo_api (json_text [("content", "hello")]) "guess" None)
                (u "general") (new_handler ∅) ∅ eq_refl) as (_ & H & _).
  cbv zeta in H. destruct H as (Hbus & Hredis & Hsent).
  cbv zeta. split; [|split; assumption].
  apply Hsent; [vm_compute; discriminate|vm_compute; eauto|vm_compute; reflexivity].
Defined.

(** The room is checked before the token: with a token that does not
    authenticate, the post to an unknown room is answered 404. *)
Lemma C7_counterexample :
  let req := demo_api (json_text [("content", "hello")]) "guess" None in
  mgr_auth demo_world (token_id_of req) (token_key_of req) = false
  /\ sent (api_post_request demo_world demo_config req (u "nowhere") (new_handler ∅))
     = Some (room_not_found_response []).
Proof. vm_compute. split; reflexivity. Qed.

(** ** Long polling without a room *)

(** C8, on the code.  A long poll without the room argument passes the
    token check and is then answered 404: [None] is not a key of the
    bindings, so the queue is never read. *)
Theorem C8_long_poll_without_room (w : world) (cfg : config) (req : request)
  (arrival : option wire) (store : gmap pystr (list wire)) :
  arg_room req = None ->
  mgr_auth w (token_id_of req) (token_key_of req) = true ->
  let s' := long_poll_request w cfg req arrival (new_handler store) in
  sent s' = Some (room_not_found_response []) /\ redis s' = store.
Proof.
  intros Hroom Hauth. cbv zeta.
  rewrite (long_poll_room_not_found w cfg req arrival store Hauth)
    by now rewrite Hroom.
  split; reflexivity.
Qed.

Lemma C8_failing_input :
  let store := Enqueue demo_world (u "tok1")
                 (json_text [("room", "general"); ("content", "hello")]) ∅ in
  let s' := long_poll_request demo_world demo_config (demo_api "" "s3cret" None) None
              (new_handler store) in
  sent s' = Some (room_not_found_response []) /\ redis s' = store.
Proof.
  apply (C8_long_poll_without_room demo_world demo_config (demo_api "" "s3cret" None)
           None _ eq_refl eq_refl).
Defined.

(** ** The [web_post] flag *)

Lemma web_post_flag_false (cfg : config) (room : pystr) :
  web_post_flag cfg room = false ->
  exists b, bindings cfg !! room = Some b /\ web_post b = Some false.
Proof.
  unfold web_post_flag.
  destruct (bindings cfg !! room) as [b|]; [|discriminate].
  destruct (web_post b) as [[|]|] eqn:E; cbn; try discriminate.
  intros _. now exists b.
Qed.

(** With the flag on, or left out, no path through the request ends in
    the "Web post is disabled." answer. *)
Lemma web_post_flag_true (w : world) (cfg : config) (req : request) (room : pystr)
  (store : gmap pystr (list wire)) :
  web_post_flag cfg room = true ->
  sent (web_post_request w cfg req room (new_handler store)) <> Some posting_disabled.
Proof.
  intros Hflag.
  unfold web_post_request, execute, default_prepare, authenticated.
  cbn [ret finished sent new_handler].
  destruct (github cfg && negb (current_user req)).
  { destruct (method req); cbn; discriminate. }
  unfold PostMessageHandler_post. rewrite Hflag. cbn [negb].
  destruct (room_not_found cfg (Some room)); [cbn; discriminate|].
  destruct (json_loads w (body req)) as [j|]; [|cbn; discriminate].
  unfold bind at 1. cbn [set_json_data modify new_handler].
  unfold bind at 1. cbn [get_json_data get_state bind json_data ret].
  unfold dict_get at 1.
  destruct j as [| | | | |items]; try (cbn; discriminate).
  unfold bind at 1. cbn [ret].
  destruct (truthy (default JNull (assoc (u "content") items)));
    [|cbn; discriminate].
  cbn [negb]. unfold bind at 1. cbn [get_json_data get_state bind json_data ret].
  unfold bind at 1. cbn [dict_get ret].
  unfold bind at 1. unfold str_strip.
  destruct (default (JStr []) (assoc (u "nickname") items)) as [| | |nick| |];
    try (cbn; discriminate).
  cbn [ret]. destruct (strip nick) as [|c rest]; [cbn; discriminate|].
  cbn [truthy negb].
  destruct (match_word_start (unicode_alnum w) (c :: rest)); [|cbn; discriminate].
  cbn [negb]. unfold bind at 1. unfold call_is_cmd.
  destruct (is_cmd w (default JNull (assoc (u "content") items))) as [b|];
    cbn; discriminate.
Qed.

(** C9. A binding that does not set [web_post] permits web posting: the
    flag reads as true, and the request is answered "Web post is disabled."
    only when the room's binding sets [web_post] to false. *)
Theorem C9_web_post_defaults_to_enabled (w : world) (cfg : config) (req : request)
  (room : pystr) (store : gmap pystr (list wire)) :
  let s' := web_post_request w cfg req room (new_handler store) in
  (forall b : binding, bindings cfg !! room = Some b -> web_post b = None ->
     web_post_flag cfg room = true /\ sent s' <> Some posting_disabled)
  /\ (sent s' = Some posting_disabled ->
      exists b : binding, bindings cfg !! room = Some b /\ web_post b = Some false).
Proof.
  cbv zeta. split.
  - intros b Hb Hunset.
    assert (web_post_flag cfg room = true) as Hflag
      by (unfold web_post_flag; now rewrite Hb, Hunset).
    split; [exact Hflag|]. now apply web_post_flag_true.
  - intros Hsent. apply web_post_flag_false.
    destruct (web_post_flag cfg room) eqn:Hflag; [|reflexivity].
    exfalso. exact (web_post_flag_true w cfg req room store Hflag Hsent).
Qed.

Lemma C9_witness :
  let ok := (json_text [("content", "hello"); ("nickname", "alice")]) in
  bindings demo_config !! u "general" = Some (mkBinding None)
  /\ sent (web_post_request demo_world demo_config (demo_post ok) (u "general")
             (new_handler ∅)) = Some posted_ok
  /\ sent (web_post_request demo_world demo_config (demo_post ok) (u "quiet")
             (new_handler ∅)) = Some posting_disabled
  /\ exists b : binding,
       bindings demo_config !! u "quiet" = Some b /\ web_post b = Some false.
Proof.
  cbv zeta. split; [vm_compute; reflexivity|].
  split; [vm_compute; reflexivity|].
  assert (sent (web_post_request demo_world demo_config
                  (demo_post (json_text [("content", "hello"); ("nickname", "alice")]))
                  (u "quiet") (new_handler ∅)) = Some posting_disabled) as H
    by (vm_compute; reflexivity).
  split; [exact H|].
  exact (proj2 (C9_web_post_defaults_to_enabled demo_world demo_config
                  (demo_post (json_text [("content", "hello"); ("nickname", "alice")]))
                  (u "quiet") ∅) H).
Defined.

(** ** Request preparation of the API post *)

(** C10. An API post with an empty body is answered 400 "Cannot handle
    empty request" by [prepare], and one whose body does not parse 400
    "Unable to parse JSON."; the request ends there: the state is the one
    [prepare] left, whatever the room and the bindings, and the token
    manager was not asked. *)
Theorem C10_prepare_rejects_unusable_body (w : world) (cfg : config) (req : request)
  (room : pystr) (store : gmap pystr (list wire)) :
  let s' := api_post_request w cfg req room (new_handler store) in
  (body req = "" ->
     s' = snd (APIPostMessageHandler_prepare w req (new_handler store))
     /\ sent s' = Some empty_request /\ trace s' = [] /\ redis s' = store)
  /\ (body req <> "" -> json_loads w (body req) = None ->
      s' = snd (APIPostMessageHandler_prepare w req (new_handler store))
      /\ sent s' = Some unparsable_request /\ trace s' = [] /\ redis s' = store).
Proof.
  cbv zeta. unfold api_post_request, execute, APIPostMessageHandler_prepare.
  split.
  - intros ->. cbn. repeat split; reflexivity.
  - intros Hne Hnone. destruct (body req) as [|c rest]; [congruence|].
    rewrite Hnone. cbn. repeat split; reflexivity.
Qed.

Lemma C10_witness :
  sent (api_post_request demo_world demo_config (demo_api "" "s3cret" None)
          (u "nowhere") (new_handler ∅)) = Some empty_request
  /\ sent (api_post_request demo_world demo_config (demo_api "{oops" "guess" None)
             (u "nowhere") (new_handler ∅)) = Some unparsable_request.
Proof.
  split.
  - apply (proj1 (C10_prepare_rejects_unusable_body demo_world demo_config
                    (demo_api "" "s3cret" None) (u "nowhere") ∅) eq_refl).
  - apply (proj2 (C10_prepare_rejects_unusable_body demo_world demo_config
                    (demo_api "{oops" "guess" None) (u "nowhere") ∅)).
    + discriminate.
    + vm_compute. reflexivity.
Defined.

(** ** Two pollers on one token *)

Lemma pollers_step_mine (q : pystr) (sys : pollers) (c : caller) :
  mine c (pollers_step q sys c) = fst (poller_step q (mine c sys) (shared sys))
  /\ shared (pollers_step q sys c) = snd (poller_step q (mine c sys) (shared sys))
  /\ mine (other c) (pollers_step q sys c) = mine (other c) sys.
Proof.
  destruct c; cbn;
    [destruct (poller_step q (poller_a sys) (shared sys))
    |destruct (poller_step q (poller_b sys) (shared sys))]; cbn; auto.
Qed.

Lemma alone_step (q : pystr) (store st : gmap pystr (list wire)) (p : poller) :
  alone q store p st ->
  alone q store (fst (poller_step q p st)) (snd (poller_step q p st)).
Proof.
  destruct 1; cbn.
  - destruct (LRANGE_all q store) as [|x l] eqn:E.
    + rewrite (LLEN_zero _ _ E). now constructor.
    + rewrite (LLEN_pos _ _ _ _ E). constructor.
  - constructor.
  - constructor.
  - rewrite LPOP_empty by assumption. constructor.
  - constructor.
  - constructor.
Qed.

Lemma alone_result (q : pystr) (store st : gmap pystr (list wire)) (p : poller) :
  alone q store p st ->
  (delivered p = [] /\ st = store)
  \/ (delivered p = LRANGE_all q store /\ st = DEL q store).
Proof. destruct 1; cbn; auto. Qed.

Lemma run_alone (q : pystr) (c : caller) (store : gmap pystr (list wire)) (n : nat) :
  forall sys : pollers,
    alone q store (mine c sys) (shared sys) ->
    let sys' := run_schedule q (replicate n c) sys in
    alone q store (mine c sys') (shared sys')
    /\ mine (other c) sys' = mine (other c) sys.
Proof.
  induction n as [|n IH]; intros sys Hsys; cbv zeta; [cbn; auto|].
  change (run_schedule q (replicate (S n) c) sys)
    with (run_schedule q (replicate n c) (pollers_step q sys c)).
  destruct (pollers_step_mine q sys c) as (Hm & Hs & Ho).
  destruct (IH (pollers_step q sys c)) as [H1 H2].
  - rewrite Hm, Hs. now apply alone_step.
  - split; [exact H1|]. now rewrite H2.
Qed.

Lemma occurrences_nil (e : wire) : occurrences e [] = 0%nat.
Proof. reflexivity. Qed.

(** One caller issues all its commands before the other issues its
    first: nothing is delivered twice. *)
Lemma sequential_no_double_delivery (q : pystr) (c : caller)
  (store : gmap pystr (list wire)) (n k : nat) :
  no_double_delivery q store (replicate n c ++ replicate k (other c)).
Proof.
  unfold no_double_delivery. cbv zeta. unfold run_schedule.
  rewrite fold_left_app. fold (run_schedule q (replicate n c) (start store)).
  set (sys1 := run_schedule q (replicate n c) (start store)).
  fold (run_schedule q (replicate k (other c)) sys1).
  set (sys2 := run_schedule q (replicate k (other c)) sys1).
  destruct (run_alone q c store n (start store)) as [Ha1 Hb1].
  { destruct c; constructor. }
  fold sys1 in Ha1, Hb1.
  destruct (run_alone q (other c) (shared sys1) k sys1) as [Hb2 Ha2].
  { rewrite Hb1. destruct c; constructor. }
  fold sys2 in Hb2, Ha2.
  assert (other (other c) = c) as Hoo by now destruct c.
  rewrite Hoo in Ha2.
  apply alone_result in Ha1. apply alone_result in Hb2.
  intros e.
  assert (occurrences e (delivered (mine c sys2))
          + occurrences e (delivered (mine (other c) sys2))
          <= occurrences e (LRANGE_all q store))%nat as H.
  { rewrite Ha2.
    destruct Ha1 as [[-> Hst]|[-> Hst]]; destruct Hb2 as [[-> _]|[-> _]];
      rewrite ?Hst, ?LRANGE_all_DEL, ?occurrences_nil; lia. }
  destruct c; cbn [mine other] in H; lia.
Qed.

(** C6, as the code has it.  The handler reads the queue with LRANGE and
    clears it with a later DEL.  When the calls of two callers on one token
    do not interleave, whichever goes first, no entry is delivered to both. *)
Theorem C6_sequential_callers_share_nothing (q : pystr)
  (store : gmap pystr (list wire)) (n k : nat) :
  no_double_delivery q store (replicate n CallerA ++ replicate k CallerB)
  /\ no_double_delivery q store (replicate n CallerB ++ replicate k CallerA).
Proof.
  split.
  - apply (sequential_no_double_delivery q CallerA).
  - apply (sequential_no_double_delivery q CallerB).
Qed.

(** The read and the clear are not one atomic step: when both callers
    read before either deletes, the one queued entry is delivered to both. *)
Lemma C6_counterexample :
  let q := u "queue:tok1" in
  let m := json_text [("room", "general"); ("content", "hello")] in
  let store : gmap pystr (list wire) := {[ q := [m] ]} in
  let sched := [CallerA; CallerB; CallerA; CallerB; CallerA; CallerB] in
  let sys := run_schedule q sched (start store) in
  LRANGE_all q store = [m]
  /\ poller_a sys = Returned [m]
  /\ poller_b sys = Returned [m]
  /\ ~ no_double_delivery q store sched.
Proof.
  cbv zeta. split; [vm_compute; reflexivity|].
  split; [vm_compute; reflexivity|]. split; [vm_compute; reflexivity|].
  intros H. specialize (H (json_text [("room", "general"); ("content", "hello")])).
  vm_compute in H. lia.
Qed.

(** The poller's steps are the handler's queue fragment: run alone, three
    commands take it past line 354 with what [drain_queue] decodes. *)
Lemma poller_runs_drain_queue (w : world) (token_id : pystr) (s : state) :
  let q := queue_key w token_id in
  let sys := run_schedule q [CallerA; CallerA; CallerA] (start (redis s)) in
  exists raw : list wire,
    poller_a sys = Returned raw
    /\ drain_queue w token_id None s = mapM (loads w) raw (with_redis (shared sys) s).
Proof.
  cbv zeta.
  destruct (LRANGE_all (queue_key w token_id) (redis s)) as [|x l] eqn:E.
  - exists []. rewrite drain_queue_idle by exact E.
    cbn [run_schedule fold_left pollers_step start poller_a poller_b shared
      poller_step].
    rewrite (LLEN_zero _ _ E).
    cbn [run_schedule fold_left pollers_step start poller_a poller_b shared
      poller_step].
    rewrite (LPOP_empty _ _ E). cbn. split; [reflexivity|now destruct s].
  - exists (x :: l). rewrite (drain_queue_pending w token_id None s x l E).
    cbn [run_schedule fold_left pollers_step start poller_a poller_b shared
      poller_step].
    rewrite (LLEN_pos _ _ _ _ E).
    cbn [run_schedule fold_left pollers_step start poller_a poller_b shared
      poller_step].
    rewrite E. split; reflexivity.
Qed.

(** * Further properties of the handlers *)

(** Keeps the final state of a request in one place while its handler is
    run branch by branch. *)
Ltac name_outcome t :=
  pattern t;
  match goal with |- ?P _ => let Q := fresh "Q" in set (Q := P) end.

Ltac open_outcome :=
  match goal with | [ Q := _ |- _ ] => subst Q end; cbn.

Ltac no_message :=
  open_outcome; split; [reflexivity|left; split; [reflexivity|discriminate]].

(** ** Web posts *)


Ltac quiet :=
  open_outcome; repeat split; reflexivity.

(** X2. Where the binding sets [web_post] to false, a web post past the
    session gate is answered 403 "Web post is disabled." whatever its body:
    the body is not read and nothing is published. *)
Theorem X2_web_post_disabled (w : world) (cfg : config) (req : request)
  (room : pystr) (store : gmap pystr (list wire)) (b : binding) :
  passes_gate cfg req = true ->
  room_not_found cfg (Some room) = false ->
  bindings cfg !! room = Some b ->
  web_post b = Some false ->
  let s' := web_post_request w cfg req room (new_handler store) in
  sent s' = Some posting_disabled /\ trace s' = [] /\ json_data s' = None
  /\ redis s' = store.
Proof.
  intros Hgate Hroom Hb Hflag. cbv zeta.
  name_outcome (web_post_request w cfg req room (new_handler store)).
  unfold web_post_request, execute, default_prepare, authenticated.
  unfold passes_gate in Hgate. apply negb_true_iff in Hgate. rewrite Hgate.
  cbn [ret finished sent new_handler].
  unfold PostMessageHandler_post, web_post_flag. rewrite Hroom, Hb, Hflag.
  quiet.
Qed.

Lemma X2_witness :
  let s' := web_post_request demo_world demo_config (demo_post "{oops")
              (u "quiet") (new_handler ∅) in
  sent s' = Some posting_disabled /\ trace s' = [] /\ json_data s' = None
  /\ redis s' = ∅.
Proof.
  apply (X2_web_post_disabled demo_world demo_config (demo_post "{oops") (u "quiet") ∅
           (mkBinding (Some false))); vm_compute; reflexivity.
Defined.

(** X3. A web post whose JSON body is not an object, or whose nickname is
    not a string, makes the handler raise: the answer is a 500 and nothing
    is published. *)
Theorem X3_web_post_wrong_shape (w : world) (cfg : config) (req : request)
  (room : pystr) (store : gmap pystr (list wire)) (j : pyval) :
  passes_gate cfg req = true ->
  room_not_found cfg (Some room) = false ->
  web_post_flag cfg room = true ->
  json_loads w (body req) = Some j ->
  let s' := web_post_request w cfg req room (new_handler store) in
  (not_a_dict j = true -> sent s' = Some server_error /\ trace s' = [])
  /\ (forall items : list (pystr * pyval),
        j = JObj items ->
        truthy (default JNull (assoc (u "content") items)) = true ->
        not_a_str (default (JStr []) (assoc (u "nickname") items)) = true ->
        sent s' = Some server_error /\ trace s' = []).
Proof.
  intros Hgate Hroom Hflag Hbody. cbv zeta.
  name_outcome (web_post_request w cfg req room (new_handler store)).
  unfold web_post_request, execute, default_prepare, authenticated.
  unfold passes_gate in Hgate. apply negb_true_iff in Hgate. rewrite Hgate.
  cbn [ret finished sent new_handler].
  unfold PostMessageHandler_post. rewrite Hroom, Hflag, Hbody. cbn [negb].
  unfold bind at 1. cbn [set_json_data modify new_handler].
  unfold bind at 1. cbn [get_json_data get_state bind json_data ret].
  unfold dict_get at 1.
  destruct j as [| | | | |items].
  1-5: open_outcome; split; [intros _; split; reflexivity|intros; discriminate].
  unfold bind at 1. cbn [ret].
  destruct (truthy (default JNull (assoc (u "content") items))) eqn:Hcontent.
  2:{ open_outcome. split; [discriminate|].
      intros items' [= <-]. congruence. }
  cbn [negb]. unfold bind at 1. cbn [get_json_data get_state bind json_data ret].
  unfold bind at 1. cbn [dict_get ret].
  unfold bind at 1. unfold str_strip.
  destruct (default (JStr []) (assoc (u "nickname") items)) as [| | |nick| |] eqn:Hnick.
  4:{ subst Q. cbv beta. split; [discriminate|].
      intros items' [= <-] _. rewrite Hnick. discriminate. }
  all: open_outcome; split; [discriminate|intros; split; reflexivity].
Qed.

Lemma X3_witness :
  let w := mkWorld (fun _ => Some (JArr [])) demo_is_cmd (fun _ => false)
                   (mgr_auth demo_world) (mgr_get_name demo_world)
                   (queue_key demo_world) (now_date demo_world) (now_time demo_world) in
  let s' := web_post_request w demo_config (demo_post "[]") (u "general")
              (new_handler ∅) in
  sent s' = Some server_error /\ trace s' = [].
Proof.
  cbv zeta.
  refine (proj1 (X3_web_post_wrong_shape _ demo_config (demo_post "[]") (u "general") ∅
                   (JArr []) _ _ _ _) _); vm_compute; reflexivity.
Defined.

(** ** API posts *)

(** X4. An API post with a bound room, a token that authenticates and a
    JSON object with a non-empty content is answered 200 "OK" after one
    call of the token manager and one call of the bus: the message goes
    out under the channel tag of the client, with the sender of the body
    or, without one, the client's name; the sender is not checked. *)
Theorem X4_api_post_accepted (w : world) (cfg : config) (req : request)
  (room : pystr) (store : gmap pystr (list wire)) (items : list (pystr * pyval))
  (b : bool) :
  room_not_found cfg (Some room) = false ->
  mgr_auth w (token_id_of req) (token_key_of req) = true ->
  body req <> "" ->
  json_loads w (body req) = Some (JObj items) ->
  truthy (default JNull (assoc (u "content") items)) = true ->
  is_cmd w (default JNull (assoc (u "content") items)) = Some b ->
  let s' := api_post_request w cfg req room (new_handler store) in
  let apiname := mgr_get_name w (token_id_of req) in
  sent s' = Some api_ok
  /\ trace s' =
       [MgrAuth (token_id_of req) (token_key_of req);
        BusCall (mkMessage (ChannelAPI apiname)
                           (default apiname (assoc (u "sender") items)) room
                           (default JNull (assoc (u "content") items))
                           (if b then Command else Text)
                           (now_date w) (now_time w) room)]
  /\ redis s' = store.
Proof.
  intros Hroom Hauth Hne Hbody Hcontent Hcmd. cbv zeta.
  name_outcome (api_post_request w cfg req room (new_handler store)).
  unfold api_post_request, execute, APIPostMessageHandler_prepare.
  destruct (body req) as [|c rest] eqn:Eb; [congruence|].
  rewrite Hbody. cbn [set_json_data modify new_handler finished sent].
  unfold APIPostMessageHandler_post. rewrite Hroom.
  unfold APIRequestHandler_auth. cbv zeta.
  unfold bind at 1. unfold bind at 1. cbn [log modify].
  rewrite Hauth. cbn [ret].
  unfold bind at 1. cbn -[truthy].
  unfold bind at 1. cbn -[truthy].
  rewrite Hcontent. cbn.
  unfold call_is_cmd. rewrite Hcmd. quiet.
Qed.

Lemma X4_witness :
  let s' := api_post_request demo_world demo_config
              (demo_api (json_text [("content", "hello")]) "s3cret" None)
              (u "general") (new_handler ∅) in
  sent s' = Some api_ok
  /\ bus_messages s' =
       [BusCall (mkMessage (ChannelAPI (JStr (u "app"))) (JStr (u "app")) (u "general")
                           (JStr (u "hello")) Text (u "2016-05-04") (u "12:00:00")
                           (u "general"))].
Proof.
  cbv zeta.
  pose proof (X4_api_post_accepted demo_world demo_config
                (demo_api (json_text [("content", "hello")]) "s3cret" None)
                (u "general") ∅ [(u "content", JStr (u "hello"))] false) as H.
  cbv zeta in H.
  destruct H as (Hsent & Htrace & _); try (vm_compute; reflexivity).
  { vm_compute. discriminate. }
  split; [exact Hsent|]. unfold bus_messages. rewrite Htrace. reflexivity.
Defined.

(** X5. Whatever the request, an API post calls the bus at most once and
    never touches the store; when it does call the bus, the room is bound
    and not private, the token authenticates, the body is a JSON object,
    and the message carries the room of the URL, the content of the body
    and the channel tag of the client. *)
Theorem X5_api_post_one_message_at_most (w : world) (cfg : config) (req : request)
  (room : pystr) (store : gmap pystr (list wire)) :
  let s' := api_post_request w cfg req room (new_handler store) in
  redis s' = store
  /\ (bus_messages s' = []
      \/ exists (m : Message) (items : list (pystr * pyval)),
           bus_messages s' = [BusCall m]
           /\ room_not_found cfg (Some room) = false
           /\ mgr_auth w (token_id_of req) (token_key_of req) = true
           /\ json_loads w (body req) = Some (JObj items)
           /\ m_room m = room
           /\ m_content m = default JNull (assoc (u "content") items)
           /\ m_channel m = ChannelAPI (mgr_get_name w (token_id_of req))).
Proof.
  cbv zeta. name_outcome (api_post_request w cfg req room (new_handler store)).
  unfold api_post_request, execute, APIPostMessageHandler_prepare.
  destruct (body req) as [|c rest] eqn:Eb;
    [open_outcome; split; [reflexivity|now left]|].
  destruct (json_loads w (String c rest)) as [j|] eqn:Hbody;
    [|open_outcome; split; [reflexivity|now left]].
  cbn [set_json_data modify new_handler finished sent].
  unfold APIPostMessageHandler_post.
  destruct (room_not_found cfg (Some room)) eqn:Hroom;
    [open_outcome; split; [reflexivity|now left]|].
  unfold APIRequestHandler_auth. cbv zeta.
  unfold bind at 1. unfold bind at 1. cbn [log modify].
  destruct (mgr_auth w (token_id_of req) (token_key_of req)) eqn:Hauth;
    [|open_outcome; split; [reflexivity|now left]].
  cbn [ret]. unfold bind at 1. cbn [get_json_data get_state bind json_data ret].
  unfold dict_get at 1.
  destruct j as [| | | | |items];
    try (open_outcome; split; [reflexivity|now left]).
  unfold bind at 1. cbn [ret]. unfold bind at 1.
  destruct (truthy (default JNull (assoc (u "content") items))) eqn:Hcontent;
    cbn [negb].
  - cbn [ret]. unfold bind at 1. cbn [get_json_data get_state bind json_data ret].
    unfold bind at 1. cbn [dict_get ret]. unfold bind at 1. unfold call_is_cmd.
    destruct (is_cmd w (default JNull (assoc (u "content") items))) as [b|];
      [|open_outcome; split; [reflexivity|now left]].
    open_outcome. split; [reflexivity|]. right. eexists. exists items.
    split; [reflexivity|]. cbn. repeat split; assumption.
  - unfold bind at 1. unfold write_json at 1, bind at 1, set_status at 1, modify at 1.
    cbn [write finished sent finish write_buffer status_code json_data trace redis app].
    unfold bind at 1. cbn [get_json_data get_state bind json_data ret].
    unfold bind at 1. cbn [dict_get ret]. unfold bind at 1. unfold call_is_cmd.
    destruct (is_cmd w (default JNull (assoc (u "content") items))) as [b|];
      [|open_outcome; split; [reflexivity|now left]].
    open_outcome. split; [reflexivity|]. right. eexists. exists items.
    split; [reflexivity|]. cbn. repeat split; assumption.
Qed.

(** X6. An API post whose JSON body is not an object passes [prepare], the
    room check and the token check, and then makes the handler raise: the
    answer is a 500 and the bus is not called. *)
Theorem X6_api_post_wrong_shape (w : world) (cfg : config) (req : request)
  (room : pystr) (store : gmap pystr (list wire)) (j : pyval) :
  room_not_found cfg (Some room) = false ->
  mgr_auth w (token_id_of req) (token_key_of req) = true ->
  body req <> "" ->
  json_loads w (body req) = Some j ->
  not_a_dict j = true ->
  let s' := api_post_request w cfg req room (new_handler store) in
  sent s' = Some server_error
  /\ trace s' = [MgrAuth (token_id_of req) (token_key_of req)]
  /\ redis s' = store.
Proof.
  intros Hroom Hauth Hne Hbody Hshape. cbv zeta.
  name_outcome (api_post_request w cfg req room (new_handler store)).
  unfold api_post_request, execute, APIPostMessageHandler_prepare.
  destruct (body req) as [|c rest] eqn:Eb; [congruence|].
  rewrite Hbody. cbn [set_json_data modify new_handler finished sent].
  unfold APIPostMessageHandler_post. rewrite Hroom.
  unfold APIRequestHandler_auth. cbv zeta.
  unfold bind at 1. unfold bind at 1. cbn [log modify].
  rewrite Hauth. cbn [ret].
  unfold bind at 1. cbn [get_json_data get_state bind json_data ret].
  unfold dict_get at 1.
  destruct j; try discriminate; quiet.
Qed.

Lemma X6_witness :
  let w := mkWorld (fun _ => Some (JNum 3)) demo_is_cmd (fun _ => false)
                   (mgr_auth demo_world) (mgr_get_name demo_world)
                   (queue_key demo_world) (now_date demo_world) (now_time demo_world) in
  let s' := api_post_request w demo_config (demo_api "3" "s3cret" None) (u "general")
              (new_handler ∅) in
  sent s' = Some server_error
  /\ trace s' = [MgrAuth (u "tok1") (u "s3cret")]
  /\ redis s' = ∅.
Proof.
  cbv zeta.
  apply (X6_api_post_wrong_shape _ demo_config (demo_api "3" "s3cret" None)
           (u "general") ∅ (JNum 3)); try (vm_compute; reflexivity).
  discriminate.
Defined.

(** ** Long polls *)

(** X7. A long poll checks the token before the room: with a token that
    does not authenticate it is answered 403 "Invalid Token" whatever the
    room argument, and the queue is left as it was. *)
Theorem X7_long_poll_refused (w : world) (cfg : config) (req : request)
  (arrival : option wire) (store : gmap pystr (list wire)) :
  mgr_auth w (token_id_of req) (token_key_of req) = false ->
  let s' := long_poll_request w cfg req arrival (new_handler store) in
  sent s' = Some (invalid_token [])
  /\ trace s' = [MgrAuth (token_id_of req) (token_key_of req)]
  /\ redis s' = store.
Proof.
  intros Hauth. cbv zeta.
  rewrite (long_poll_refused w cfg req arrival store Hauth). repeat split.
Qed.

Lemma X7_witness :
  let store := Enqueue demo_world (u "tok1")
                 (json_text [("room", "general"); ("content", "hello")]) ∅ in
  let s' := long_poll_request demo_world demo_config
              (demo_api "" "guess" (Some (u "nowhere"))) None (new_handler store) in
  sent s' = Some (invalid_token []) /\ redis s' = store.
Proof.
  cbv zeta.
  pose proof (X7_long_poll_refused demo_world demo_config
                (demo_api "" "guess" (Some (u "nowhere"))) None
                (Enqueue demo_world (u "tok1")
                   (json_text [("room", "general"); ("content", "hello")]) ∅)
                eq_refl) as (H1 & _ & H2).
  split; assumption.
Defined.

Lemma mapM_loads_fails (w : world) (raw : list wire) (e : wire) (s : state) :
  In e raw -> json_loads w e = None ->
  mapM (loads w) raw s = (Raise ValueError, s).
Proof.
  intros Hin Hnone. induction raw as [|x raw IH]; [contradiction|].
  cbn [mapM]. unfold bind at 1. unfold loads at 1.
  destruct (json_loads w x) as [j|] eqn:Hx; cbn [ret raise]; [|reflexivity].
  destruct Hin as [->|Hin]; [congruence|].
  unfold bind at 1. now rewrite (IH Hin).
Qed.

(** A long poll past the token and room checks goes on with the queue. *)
Lemma long_poll_reads_queue (w : world) (cfg : config) (req : request)
  (arrival : option wire) (store : gmap pystr (list wire)) (e : exn) (s1 : state) :
  mgr_auth w (token_id_of req) (token_key_of req) = true ->
  room_not_found cfg (arg_room req) = false ->
  drain_queue w (token_id_of req) arrival (polling req store) = (Raise e, s1) ->
  long_poll_request w cfg req arrival (new_handler store)
    = handle_request_exception e s1.
Proof.
  intros Hauth Hfound Hdrain.
  unfold long_poll_request, execute, default_prepare.
  cbn [ret finished sent new_handler].
  unfold APILongPollingHandler_get, APIRequestHandler_auth. cbv zeta.
  unfold bind at 1. unfold bind at 1. cbn [log modify new_handler app status_code
    write_buffer sent json_data trace redis].
  rewrite Hauth. cbn [ret]. rewrite Hfound.
  unfold bind at 1. fold (polling req store). rewrite Hdrain. reflexivity.
Qed.

(** X8. The queue is deleted before its entries are decoded: when one
    pending entry is not valid JSON, an admitted long poll is answered 500
    and every pending entry is gone from the store. *)
Theorem X8_undecodable_entry_loses_queue (w : world) (cfg : config) (req : request)
  (arrival : option wire) (store : gmap pystr (list wire))
  (x e : wire) (l : list wire) :
  mgr_auth w (token_id_of req) (token_key_of req) = true ->
  room_not_found cfg (arg_room req) = false ->
  LRANGE_all (queue_key w (token_id_of req)) store = x :: l ->
  In e (x :: l) ->
  json_loads w e = None ->
  let s' := long_poll_request w cfg req arrival (new_handler store) in
  sent s' = Some server_error
  /\ redis s' = DEL (queue_key w (token_id_of req)) store
  /\ LRANGE_all (queue_key w (token_id_of req)) (redis s') = [].
Proof.
  intros Hauth Hfound Hq Hin Hnone. cbv zeta.
  rewrite (long_poll_reads_queue w cfg req arrival store ValueError
             (with_redis (DEL (queue_key w (token_id_of req)) store) (polling req store)))
    by (try assumption;
        rewrite (drain_queue_pending w _ arrival (polling req store) x l) by exact Hq;
        now apply (mapM_loads_fails w (x :: l) e)).
  split; [reflexivity|]. split; [reflexivity|]. apply LRANGE_all_DEL.
Qed.

Lemma X8_witness :
  let good := json_text [("room", "general"); ("content", "hello")] in
  let store := Enqueue demo_world (u "tok1") "{oops"
                 (Enqueue demo_world (u "tok1") good ∅) in
  let s' := long_poll_request demo_world demo_config
              (demo_api "" "s3cret" (Some (u "general"))) None (new_handler store) in
  sent s' = Some server_error /\ redis s' = ∅.
Proof.
  cbv zeta.
  pose proof (X8_undecodable_entry_loses_queue demo_world demo_config
                (demo_api "" "s3cret" (Some (u "general"))) None
                (Enqueue demo_world (u "tok1") "{oops"
                   (Enqueue demo_world (u "tok1")
                      (json_text [("room", "general"); ("content", "hello")]) ∅))
                (json_text [("room", "general"); ("content", "hello")])
                "{oops" ["{oops"]) as H.
  cbv zeta in H. destruct H as (H1 & H2 & _); try (vm_compute; reflexivity).
  { right. now left. }
  split; [exact H1|]. rewrite H2. vm_compute. reflexivity.
Defined.

Lemma filterM_room_is_fails (r : pystr) (js : list pyval) (j : pyval) (s : state) :
  In j js -> room_field j = None ->
  exists e : exn,
    error_code e = 500%nat /\ filterM (room_is r) js s = (Raise e, s).
Proof.
  intros Hin Hnone. induction js as [|x js IH]; [contradiction|].
  cbn [filterM]. unfold bind at 1. unfold room_is at 1, room_of, bind at 1.
  destruct x as [| | | | |items]; try (eexists; split; [|reflexivity]; reflexivity).
  destruct (assoc (u "room") items) as [v|] eqn:Ev; [|eexists; split; [|reflexivity]; reflexivity].
  destruct Hin as [<-|Hin]; [cbn in Hnone; congruence|].
  destruct (IH Hin) as (e & Hcode & He). exists e. split; [exact Hcode|].
  unfold ret at 1 2. unfold bind at 1. now rewrite He.
Qed.

(** X9. With a room filter, a pending entry that decodes to something
    without a ["room"] makes the filter raise after the queue was deleted:
    the poll is answered 500 and every pending entry is gone. *)
Theorem X9_entry_without_room_loses_queue (w : world) (cfg : config) (req : request)
  (arrival : option wire) (store : gmap pystr (list wire)) (r : pystr)
  (x : wire) (l : list wire) (js : list pyval) (j : pyval) :
  mgr_auth w (token_id_of req) (token_key_of req) = true ->
  arg_room req = Some r ->
  r <> [] ->
  room_not_found cfg (Some r) = false ->
  LRANGE_all (queue_key w (token_id_of req)) store = x :: l ->
  Forall2 (fun e j => json_loads w e = Some j) (x :: l) js ->
  In j js ->
  room_field j = None ->
  let s' := long_poll_request w cfg req arrival (new_handler store) in
  sent s' = Some server_error
  /\ redis s' = DEL (queue_key w (token_id_of req)) store.
Proof.
  intros Hauth Hroom Hr Hfound Hq Hjs Hin Hnone. cbv zeta.
  rewrite (long_poll_admitted w cfg req arrival store r) by assumption.
  rewrite (drain_queue_pending w _ arrival (polling req store) x l) by exact Hq.
  rewrite (mapM_loads w (x :: l) js) by exact Hjs. cbv beta iota.
  change (redis (polling req store)) with store.
  destruct (filterM_room_is_fails r js j
              (with_redis (DEL (queue_key w (token_id_of req)) store)
                 (polling req store)) Hin Hnone) as (e & Hcode & He).
  rewrite He. unfold handle_request_exception. cbn [finished sent with_redis polling].
  rewrite Hcode. split; reflexivity.
Qed.

Lemma X9_witness :
  let store := Enqueue demo_world (u "tok1") (json_text [("content", "hello")])
                 (Enqueue demo_world (u "tok1")
                    (json_text [("room", "general"); ("content", "hello")]) ∅) in
  let s' := long_poll_request demo_world demo_config
              (demo_api "" "s3cret" (Some (u "general"))) None (new_handler store) in
  sent s' = Some server_error /\ redis s' = ∅.
Proof.
  cbv zeta.
  pose proof (X9_entry_without_room_loses_queue demo_world demo_config
                (demo_api "" "s3cret" (Some (u "general"))) None
                (Enqueue demo_world (u "tok1") (json_text [("content", "hello")])
                   (Enqueue demo_world (u "tok1")
                      (json_text [("room", "general"); ("content", "hello")]) ∅))
                (u "general")
                (json_text [("room", "general"); ("content", "hello")])
                [json_text [("content", "hello")]]
                [json_object [("room", "general"); ("content", "hello")];
                 json_object [("content", "hello")]]
                (json_object [("content", "hello")])) as H.
  cbv zeta in H. destruct H as (H1 & H2); try (vm_compute; reflexivity).
  { discriminate. }
  { repeat constructor. }
  { right. now left. }
  split; [exact H1|]. rewrite H2. vm_compute. reflexivity.
Defined.

(** X10. On an empty queue the handler waits for one entry.  The entry that
    arrives is consumed whatever its room: it is answered when it carries
    the requested room and dropped otherwise, and the store holds no
    trace of it. *)
Theorem X10_arrival_is_filtered_too (w : world) (cfg : config) (req : request)
  (store : gmap pystr (list wire)) (r : pystr) (a : wire) (j : pyval) :
  mgr_auth w (token_id_of req) (token_key_of req) = true ->
  arg_room req = Some r ->
  r <> [] ->
  room_not_found cfg (Some r) = false ->
  LRANGE_all (queue_key w (token_id_of req)) store = [] ->
  json_loads w a = Some j ->
  is_Some (room_field j) ->
  let s' := long_poll_request w cfg req (Some a) (new_handler store) in
  sent s' = Some (messages_response (if room_matches r j then [j] else []))
  /\ redis s' = store.
Proof.
  intros Hauth Hroom Hr Hfound Hq Ha Hj. cbv zeta.
  destruct (long_poll_answer w cfg req (Some a) store store r [j]) as [Hsent Hredis];
    try assumption.
  - rewrite drain_queue_waiting by exact Hq.
    unfold bind, loads, ret. rewrite Ha. reflexivity.
  - constructor; [exact Hj|constructor].
  - cbv zeta in Hsent, Hredis. split; [|exact Hredis].
    rewrite Hsent. cbn [List.filter]. now destruct (room_matches r j).
Qed.

Lemma X10_witness :
  let s' := long_poll_request demo_world demo_config
              (demo_api "" "s3cret" (Some (u "general")))
              (Some (json_text [("room", "dev"); ("content", "patch")]))
              (new_handler ∅) in
  sent s' = Some (messages_response []) /\ redis s' = ∅.
Proof.
  cbv zeta.
  apply (X10_arrival_is_filtered_too demo_world demo_config
           (demo_api "" "s3cret" (Some (u "general"))) ∅ (u "general")
           (json_text [("room", "dev"); ("content", "patch")])
           (json_object [("room", "dev"); ("content", "patch")]));
    try (vm_compute; reflexivity).
  - discriminate.
  - vm_compute. eauto.
Defined.

(** X11. The read and the delete of a poll are two commands: an entry a
    producer pushes between them was in the queue when it was deleted, is
    not part of what the poller returns, and is in the queue no more. *)
Theorem X11_push_between_read_and_delete_is_lost (q : pystr)
  (store : gmap pystr (list wire)) (e x : wire) (l : list wire) :
  LRANGE_all q store = e :: l ->
  let after_llen := poller_step q AtLlen store in
  let after_lrange := poller_step q (fst after_llen) (snd after_llen) in
  let pushed := RPUSH q x (snd after_lrange) in
  let after_del := poller_step q (fst after_lrange) pushed in
  LRANGE_all q pushed = (e :: l) ++ [x]
  /\ fst after_del = Returned (e :: l)
  /\ LRANGE_all q (snd after_del) = [].
Proof.
  intros Hq. cbv zeta. cbn [poller_step fst snd].
  rewrite (LLEN_pos _ _ _ _ Hq). cbn [poller_step fst snd]. rewrite Hq.
  split; [|split; [reflexivity|apply LRANGE_all_DEL]].
  unfold LRANGE_all, RPUSH in *. rewrite lookup_insert_eq.
  destruct (store !! q); cbn in *; now subst.
Qed.

Lemma X11_witness :
  let q := u "queue:tok1" in
  let store : gmap pystr (list wire) := {[ q := ["first"] ]} in
  let after_lrange := poller_step q AtLrange store in
  let after_del := poller_step q (fst after_lrange) (RPUSH q "second" store) in
  fst after_del = Returned ["first"] /\ LRANGE_all q (snd after_del) = [].
Proof.
  cbv zeta.
  pose proof (X11_push_between_read_and_delete_is_lost (u "queue:tok1")
                {[ u "queue:tok1" := ["first"] ]} "first" "second" [] eq_refl)
    as (_ & H1 & H2).
  split; [exact H1|exact H2].
Defined.

(** ** The session gate *)

(** X12. Where the GitHub login is configured, [authenticated] does not run
    the method of a request without a session, whatever the method does:
    a POST is answered 403 and a GET or HEAD is redirected, and the
    handler's events, store and [json_data] are as before.  Without the
    login configured, or with a session, the decorated method is the
    method. *)
Theorem X12_authenticated_guards_the_method (cfg : config) (req : request)
  (f : M unit) (s : state) :
  finished s = false ->
  (passes_gate cfg req = false ->
   let s' := execute default_prepare (authenticated cfg req f) s in
   trace s' = trace s /\ redis s' = redis s /\ json_data s' = json_data s
   /\ sent s' = Some (match method req with
                      | POST => forbidden
                      | GET | HEAD => mkResponse 302 (write_buffer s)
                      end))
  /\ (passes_gate cfg req = true -> authenticated cfg req f = f).
Proof.
  intros Hopen. unfold passes_gate, authenticated. split.
  - intros Hgate. apply negb_false_iff in Hgate. rewrite Hgate. cbv zeta.
    unfold execute, default_prepare, ret. rewrite Hopen.
    destruct (method req); unfold redirect, raise, bind, set_status, modify.
    + rewrite finish_open by exact Hopen. cbn. rewrite app_nil_r. repeat split.
    + rewrite finish_open by exact Hopen. cbn. rewrite app_nil_r. repeat split.
    + unfold handle_request_exception. rewrite Hopen. cbn. repeat split.
  - intros Hgate. apply negb_true_iff in Hgate. now rewrite Hgate.
Qed.

Lemma X12_witness :
  let publish := log (BusPublish (mkMessage ChannelWeb (JStr (u "eve")) (u "general")
                                            (JStr (u "hi")) Text [] [] (u "general"))) in
  let s' := execute default_prepare
              (authenticated demo_config_oauth (demo_post "") publish) (new_handler ∅) in
  trace s' = [] /\ sent s' = Some forbidden.
Proof.
  cbv zeta.
  pose proof (proj1 (X12_authenticated_guards_the_method demo_config_oauth
                       (demo_post "")
                       (log (BusPublish (mkMessage ChannelWeb (JStr (u "eve"))
                                                   (u "general") (JStr (u "hi")) Text
                                                   [] [] (u "general"))))
                       (new_handler ∅) eq_refl) eq_refl) as H.
  cbv zeta in H. destruct H as (H1 & _ & _ & H2). split; [exact H1|exact H2].
Defined.

(** ** The chat log of a day *)

(** From a start inside or past the list, [LRANGE] is a [take] of a [drop]. *)
Lemma LRANGE_window (q : pystr) (start stop : Z) (store : gmap pystr (list wire)) :
  (0 <= start)%Z ->
  let l := LRANGE_all q store in
  let stop' := (if stop <? 0 then Z.of_nat (length l) + stop else stop)%Z in
  LRANGE q start stop store
  = take (Z.to_nat (stop' - start + 1)) (drop (Z.to_nat start) l).
Proof.
  intros Hstart. cbv zeta. unfold LRANGE, LRANGE_all.
  set (l := default [] (store !! q)).
  set (stop' := (if stop <? 0 then Z.of_nat (length l) + stop else stop)%Z).
  assert ((start <? 0)%Z = false) as Hs by (apply Z.ltb_ge; lia).
  rewrite Hs. cbv iota. rewrite Hs. cbv iota.
  destruct (start >? stop')%Z eqn:Hgt.
  { cbn [orb]. apply Z.gtb_lt in Hgt.
    replace (Z.to_nat (stop' - start + 1)) with 0%nat by lia. reflexivity. }
  destruct (start >=? Z.of_nat (length l))%Z eqn:Hge.
  { cbn [orb]. apply Z.geb_le in Hge.
    rewrite drop_ge by lia. now rewrite take_nil. }
  cbn [orb]. rewrite Z.gtb_ltb in Hgt. apply Z.ltb_ge in Hgt.
  rewrite Z.geb_leb in Hge. apply Z.leb_gt in Hge.
  destruct (stop' >=? Z.of_nat (length l))%Z eqn:Hclamp; [|reflexivity].
  apply Z.geb_le in Hclamp.
  rewrite !take_ge; [reflexivity| |]; rewrite length_drop; lia.
Qed.

Lemma loads_all_ok (w : world) (logs : list wire) (js : list pyval) :
  Forall2 (fun e j => json_loads w e = Some j) logs js ->
  loads_all w logs = Ok js.
Proof.
  induction 1 as [|e j logs js He _ IH]; cbn; [reflexivity|].
  now rewrite He, IH.
Qed.

Lemma tag_messages_all (i : Z) (count : nat) (objs : list (list (pystr * pyval))) :
  (length objs <= count)%nat ->
  tag_messages i count (map JObj objs) = Ok (with_ids i objs).
Proof.
  revert i count. induction objs as [|o objs IH]; intros i count Hlen.
  - destruct count; reflexivity.
  - destruct count as [|count]; [cbn in Hlen; lia|].
    cbn [map tag_messages tag_message with_ids]. rewrite IH by (cbn in Hlen; lia).
    reflexivity.
Qed.

Lemma tag_messages_none (i : Z) (msgs : list pyval) :
  tag_messages i 0 msgs = Ok msgs.
Proof. destruct msgs; reflexivity. Qed.

Lemma with_ids_lookup (i : Z) (objs : list (list (pystr * pyval))) (k : nat)
  (o : list (pystr * pyval)) :
  objs !! k = Some o ->
  with_ids i objs !! k = Some (listed (i + Z.of_nat k) o).
Proof.
  revert i k. induction objs as [|x objs IH]; intros i k; [discriminate|].
  destruct k as [|k]; intros H.
  - cbn in H. injection H as ->. cbn. now rewrite Z.add_0_r.
  - change (objs !! k = Some o) in H.
    change (with_ids (i + 1) objs !! k = Some (listed (i + Z.of_nat (S k)) o)).
    rewrite (IH (i + 1)%Z k H). do 2 f_equal. lia.
Qed.

(** The JSON answer of an admitted log request, from the entries the
    window holds. *)
Lemma chat_log_json (w : world) (cfg : config) (env : logs_env)
  (store : gmap pystr (list wire)) (room date : pystr) (q : log_query)
  (a L K : Z) :
  room_not_found cfg (Some room) = false ->
  let day := if pystr_eqb date (u "today") then now_date w else date in
  let key := log_key env room day in
  let n := Z.of_N (LLEN key store) in
  age env day = Some a ->
  (a <= seven_days)%Z ->
  argument_given (q_json q) = true ->
  int_argument env (q_last q) n = Some L ->
  int_argument env (q_limit q) (if argument_given (q_embedded q) then 15%Z else n)
    = Some K ->
  let start := Z.max (L - K) 0 in
  ChatLogHandler_get w cfg env store room date q =
    match loads_all w (LRANGE key start (L - 1) store) with
    | Raise e => Raise e
    | Ok msgs =>
        match tag_messages start (Z.to_nat (L - start)) msgs with
        | Raise e => Raise e
        | Ok msgs => Ok (LogJson msgs)
        end
    end.
Proof.
  intros Hroom day key n Hage Hrecent Hjson Hlast Hlimit start.
  unfold ChatLogHandler_get. rewrite Hroom. cbv zeta.
  fold day. rewrite Hage.
  assert ((a >? seven_days)%Z = false) as ->
    by (rewrite Z.gtb_ltb; apply Z.ltb_ge; lia).
  fold key. fold n. rewrite Hlast, Hlimit, Hjson.
  replace (L - 1 - K + 1)%Z with (L - K)%Z by lia. fold start.
  replace (L - 1 + 1 - start)%Z with (L - start)%Z by lia.
  reflexivity.
Qed.

Lemma LLEN_length (q : pystr) (store : gmap pystr (list wire)) :
  Z.of_N (LLEN q store) = Z.of_nat (length (LRANGE_all q store)).
Proof. unfold LLEN, LRANGE_all. apply nat_N_Z. Qed.

Lemma loads_all_objects (w : world) (logs : list wire)
  (objs : list (list (pystr * pyval))) :
  Forall2 (fun e o => json_loads w e = Some (JObj o)) logs objs ->
  loads_all w logs = Ok (map JObj objs).
Proof.
  intros H. apply loads_all_ok.
  induction H; cbn; constructor; assumption.
Qed.

(** The window of a request for the entries up to [L], [L] at least 1. *)
Lemma chat_log_json_listed (w : world) (cfg : config) (env : logs_env)
  (store : gmap pystr (list wire)) (room date : pystr) (q : log_query)
  (a L K : Z) (objs : list (list (pystr * pyval))) :
  room_not_found cfg (Some room) = false ->
  let day := if pystr_eqb date (u "today") then now_date w else date in
  let key := log_key env room day in
  let n := Z.of_N (LLEN key store) in
  age env day = Some a ->
  (a <= seven_days)%Z ->
  argument_given (q_json q) = true ->
  int_argument env (q_last q) n = Some L ->
  int_argument env (q_limit q) (if argument_given (q_embedded q) then 15%Z else n)
    = Some K ->
  (1 <= L)%Z ->
  Forall2 (fun e o => json_loads w e = Some (JObj o)) (LRANGE_all key store) objs ->
  let start := Z.max (L - K) 0 in
  ChatLogHandler_get w cfg env store room date q
  = Ok (LogJson (with_ids start
                   (take (Z.to_nat (L - start)) (drop (Z.to_nat start) objs)))).
Proof.
  intros Hroom day key n Hage Hrecent Hjson Hlast Hlimit HL Hobjs start.
  rewrite (chat_log_json w cfg env store room date q a L K) by assumption.
  fold day key start.
  rewrite (LRANGE_window key start (L - 1) store) by (unfold start; lia).
  cbv zeta.
  assert ((L - 1 <? 0)%Z = false) as -> by (apply Z.ltb_ge; lia).
  replace (L - 1 - start + 1)%Z with (L - start)%Z by lia.
  rewrite (loads_all_objects w _
             (take (Z.to_nat (L - start)) (drop (Z.to_nat start) objs)))
    by (apply Forall2_take, Forall2_drop; exact Hobjs).
  rewrite tag_messages_all by (rewrite length_take; lia).
  reflexivity.
Qed.







(** ** Stored texts *)

(** [LRANGE key i i] is the entry at [i], counted from the end when [i] is
    negative, or nothing. *)
Lemma LRANGE_at (q : pystr) (i : Z) (store : gmap pystr (list wire)) :
  let l := LRANGE_all q store in
  let idx := (if i <? 0 then Z.of_nat (length l) + i else i)%Z in
  LRANGE q i i store
  = if (idx <? 0)%Z then []
    else match l !! Z.to_nat idx with
         | Some v => [v]
         | None => []
         end.
Proof.
  cbv zeta. unfold LRANGE, LRANGE_all.
  set (l := default [] (store !! q)).
  set (idx := (if i <? 0 then Z.of_nat (length l) + i else i)%Z).
  destruct (idx <? 0)%Z eqn:Hneg.
  - apply Z.ltb_lt in Hneg.
    assert ((0 >? idx)%Z = true) as -> by (apply Z.gtb_lt; lia). reflexivity.
  - apply Z.ltb_ge in Hneg.
    assert ((idx >? idx)%Z = false) as ->
      by (rewrite Z.gtb_ltb; apply Z.ltb_ge; lia).
    cbn [orb]. destruct (idx >=? Z.of_nat (length l))%Z eqn:Hge.
    + apply Z.geb_le in Hge. rewrite lookup_ge_None_2 by lia. reflexivity.
    + rewrite Z.geb_leb in Hge. apply Z.leb_gt in Hge.
      replace (idx - idx + 1)%Z with 1%Z by lia.
      destruct (l !! Z.to_nat idx) as [v|] eqn:Hv.
      * rewrite (drop_S l v (Z.to_nat idx) Hv). reflexivity.
      * apply lookup_ge_None in Hv. lia.
Qed.







(** ** The colour of a name *)

Lemma substring_prefix (prefix t : string) (n : nat) :
  substring 0 (String.length prefix + n) (prefix ++ t) = (prefix ++ substring 0 n t)%string.
Proof.
  induction prefix as [|c prefix IH]; [reflexivity|].
  simpl. rewrite IH. reflexivity.
Qed.

Lemma hex_digits_app (s t : string) (acc : N) :
  hex_digits acc (s ++ t)
  = match hex_digits acc s with
    | Some a => hex_digits a t
    | None => None
    end.
Proof.
  revert acc. induction s as [|c s IH]; intros acc; [reflexivity|].
  simpl. destruct (hex_digit c); [apply IH|reflexivity].
Qed.

Lemma hex_digit_bound (c : ascii) (d : N) : hex_digit c = Some d -> d < 16.
Proof.
  unfold hex_digit, in_range. intros H.
  repeat match type of H with
         | (if ?b then _ else _) = _ => destruct b eqn:?
         end; try discriminate; injection H as <-;
    repeat match goal with
           | [ E : (_ && _)%bool = true |- _ ] => apply andb_prop in E; destruct E
           | [ E : (_ <=? _) = true |- _ ] => apply N.leb_le in E
           end; lia.
Qed.

Lemma percent_d_digit (k : N) :
  k < 8 -> percent_d k = String (ascii_of_N (48 + k)) EmptyString.
Proof.
  intros Hk.
  assert (k = 0 \/ k = 1 \/ k = 2 \/ k = 3 \/ k = 4 \/ k = 5 \/ k = 6 \/ k = 7)
    as Hcases by lia.
  repeat destruct Hcases as [->|Hcases]; try subst k; reflexivity.
Qed.

(** X19. The style number of a name is one character, a digit from 0 to
    7, and the eighth hexadecimal digit of the name's MD5 digest alone
    decides which: it is that digit modulo 8. *)
Theorem X19_name_style_is_one_of_eight (env : logs_env) (text : pystr)
  (prefix rest : string) (c : ascii) (p d : N) :
  md5_hexdigest env text = (prefix ++ String c rest)%string ->
  String.length prefix = 7%nat ->
  hex_digits 0 prefix = Some p ->
  hex_digit c = Some d ->
  name_style_num env text = Ok (String (ascii_of_N (48 + d mod 8)) EmptyString)
  /\ d mod 8 < 8.
Proof.
  intros Hdigest Hlen Hprefix Hc.
  assert (d mod 8 < 8) as Hsmall by (apply N.mod_lt; lia).
  split; [|exact Hsmall].
  unfold name_style_num. rewrite Hdigest.
  change 8%nat with (7 + 1)%nat. rewrite <- Hlen, substring_prefix.
  assert (substring 0 1 (String c rest) = String c EmptyString) as ->
    by (destruct rest; reflexivity).
  assert (int16 (prefix ++ String c EmptyString)
          = hex_digits 0 (prefix ++ String c EmptyString)) as ->
    by (destruct prefix; [discriminate Hlen|reflexivity]).
  rewrite hex_digits_app, Hprefix. cbn [hex_digits]. rewrite Hc.
  change 7 with (N.ones 3). rewrite N.land_ones.
  change (2 ^ 3) with 8.
  replace (16 * p + d) with (d + (2 * p) * 8) by lia.
  rewrite N.Div0.mod_add. now rewrite percent_d_digit.
Qed.

Lemma X19_witness :
  name_style_num demo_logs_env (u "") = Ok "1" /\ 9 mod 8 < 8.
Proof.
  exact (X19_name_style_is_one_of_eight demo_logs_env (u "") "d41d8cd"
           "8f00b204e9800998ecf8427e" "9" 222419149 9
           eq_refl eq_refl eq_refl eq_refl).
Defined.

(** ** The message stream *)

Lemma connected_app (t es : list ws_event) (acc : list nat) :
  connected acc (t ++ es) = connected (connected acc t) es.
Proof.
  revert acc. induction t as [|e t IH]; intros acc; [reflexivity|].
  destruct e; cbn; apply IH.
Qed.

Lemma filter_ne_seq (k : nat) :
  filter (fun x => x <> k) (seq 0 (S k)) = seq 0 k.
Proof.
  rewrite seq_S, filter_app. cbn [Nat.add].
  rewrite filter_cons_False, filter_nil, app_nil_r by (intros H; now apply H).
  assert (forall l : list nat, Forall (fun x => x <> k) l ->
          filter (fun x => x <> k) l = l) as Hkeep.
  { induction 1 as [|x l Hx _ IH]; [reflexivity|].
    rewrite filter_cons_True by exact Hx. now rewrite IH. }
  apply Hkeep. apply Forall_forall. intros x Hx. apply elem_of_seq in Hx. lia.
Qed.

Lemma stream_inv_close (n : nat) (s : socket) :
  stream_inv n s -> stream_inv n (ws_close s).
Proof.
  intros (Hc & Hr & Ht & Hs). repeat split; try assumption.
  - cbn. rewrite connected_app, Ht. reflexivity.
  - now apply (Hs c chans).
  - now apply (Hs c chans).
Qed.

(** A connection made for a frame that is then refused. *)
Lemma stream_inv_set_r (n : nat) (s : socket) :
  stream_inv n s -> stream_inv (S n) (ws_close (set_r s)).
Proof.
  intros (Hc & Hr & Ht & Hs). repeat split.
  - cbn. now rewrite Hc.
  - cbn. now rewrite Hc.
  - unfold ws_close, ws_log, set_r. cbn [ws_trace].
    rewrite !connected_app, Ht. cbn [connected]. rewrite Hc, seq_S. reflexivity.
  - destruct (Hs c chans H) as [Hlt _]. lia.
  - destruct (Hs c chans H) as [Hlt (chan & -> & _)].
    exists chan. split; [reflexivity|]. intros Heq. lia.
Qed.

Lemma stream_inv_step (w : world) (cfg : config) (channel : pystr -> pystr)
  (jmsg : wire) (n : nat) (s : socket) :
  stream_inv n s ->
  stream_inv (match json_loads w jmsg with Some _ => S n | None => n end)
             (MessageStreamHandler_on_message w cfg channel jmsg s).
Proof.
  intros Hinv. unfold MessageStreamHandler_on_message.
  destruct (json_loads w jmsg) as [msg|]; [|now apply stream_inv_close].
  pose proof (stream_inv_set_r n s Hinv) as Hrefused.
  destruct msg as [| | | | |items]; try exact Hrefused.
  destruct (assoc (u "room") items) as [[| | |room| |]|]; try exact Hrefused.
  destruct (room_not_found cfg (Some room)); [exact Hrefused|].
  destruct Hinv as (Hc & Hr & Ht & Hs).
  assert (subscriptions s !! n = None) as Hfresh.
  { destruct (subscriptions s !! n) as [chans|] eqn:Hn; [|reflexivity].
    destruct (Hs n chans Hn) as [Hlt _]. lia. }
  unfold MessageStreamHandler_listen, set_r. cbn. rewrite Hc.
  repeat split.
  - cbn [ws_trace]. rewrite <- app_assoc, connected_app, Ht. cbn [connected app].
    rewrite seq_S. reflexivity.
  - cbn in H. destruct (decide (c = n)) as [->|Hne]; [lia|].
    rewrite lookup_insert_ne in H by congruence.
    destruct (Hs c chans H) as [Hlt _]. lia.
  - cbn in H |- *. destruct (decide (c = n)) as [->|Hne].
    + rewrite lookup_insert_eq, Hfresh in H. injection H as <-.
      exists (channel room). split; reflexivity.
    + rewrite lookup_insert_ne in H by congruence.
      destruct (Hs c chans H) as [Hlt (chan & -> & _)].
      exists chan. split; [reflexivity|]. intros Heq. lia.
Qed.

Lemma frames_inv (w : world) (cfg : config) (channel : pystr -> pystr)
  (jmsgs : list wire) :
  stream_inv (length (decodable w jmsgs)) (frames w cfg channel jmsgs).
Proof.
  induction jmsgs as [|jmsg jmsgs IH] using rev_ind.
  - repeat split; try reflexivity; cbn in H; rewrite lookup_empty in H; discriminate.
  - unfold frames, decodable in *. rewrite fold_left_app, filter_app, length_app.
    cbn [fold_left].
    pose proof (stream_inv_step w cfg channel jmsg _ _ IH) as Hstep.
    destruct (json_loads w jmsg) as [msg|] eqn:Hmsg.
    + rewrite filter_cons_True, filter_nil by (rewrite Hmsg; eauto).
      cbn [length]. now rewrite Nat.add_1_r.
    + rewrite filter_cons_False, filter_nil by (rewrite Hmsg; intros [? ?]; discriminate).
      cbn [length]. now rewrite Nat.add_0_r.
Qed.

(** X20. A frame on the message stream either subscribes a new client to
    the channel of its room, which happens exactly when it is a JSON
    object whose [room] is a string naming a bound room that is not
    private, or it closes the socket and subscribes nothing; a refused
    frame whose JSON parses has still made a connection. *)
Theorem X20_stream_frame_subscribes_or_closes (w : world) (cfg : config)
  (channel : pystr -> pystr) (jmsg : wire) (s : socket) :
  let s' := MessageStreamHandler_on_message w cfg channel jmsg s in
  let c := clients s in
  (exists (items : list (pystr * pyval)) (room : pystr),
      json_loads w jmsg = Some (JObj items)
      /\ assoc (u "room") items = Some (JStr room)
      /\ room_not_found cfg (Some room) = false
      /\ ws_r s' = Some c
      /\ redis_chan s' = Some (channel room)
      /\ subscribed c s' = true
      /\ ws_trace s'
         = ws_trace s ++ [WsConnect c; WsSubscribe c (channel room); WsListen c])
  \/ (subscriptions s' = subscriptions s
      /\ redis_chan s' = redis_chan s
      /\ ((json_loads w jmsg = None
           /\ ws_r s' = ws_r s
           /\ ws_trace s' = ws_trace s ++ [WsClose])
          \/ (json_loads w jmsg <> None
              /\ ws_r s' = Some c
              /\ ws_trace s' = ws_trace s ++ [WsConnect c; WsClose]))).
Proof.
  cbv zeta. unfold MessageStreamHandler_on_message.
  assert (forall t : list ws_event,
            (t ++ [WsConnect (clients s)]) ++ [WsClose]
            = t ++ [WsConnect (clients s); WsClose]) as Htrace
    by (intros t; now rewrite <- app_assoc).
  destruct (json_loads w jmsg) as [msg|] eqn:Hmsg.
  2:{ right. repeat split. left. repeat split. }
  destruct msg as [| | | | |items];
    try (right; repeat split; right; repeat split; [discriminate|apply Htrace]).
  destruct (assoc (u "room") items) as [[| | |room| |]|] eqn:Hroom;
    try (right; repeat split; right; repeat split; [discriminate|apply Htrace]).
  destruct (room_not_found cfg (Some room)) eqn:Hfound;
    [right; repeat split; right; repeat split; [discriminate|apply Htrace]|].
  left. exists items, room.
  split; [reflexivity|]. split; [exact Hroom|]. split; [exact Hfound|].
  unfold MessageStreamHandler_listen, set_r. cbn.
  split; [reflexivity|]. split; [reflexivity|]. split.
  - unfold subscribed. cbn. now rewrite lookup_insert_eq.
  - now rewrite <- app_assoc.
Qed.

(** X21. [on_close] disconnects the client of the last decodable frame
    and no other: when a connection has carried [n] decodable frames,
    the clients made for all but the last of them are still connected
    after it is closed.  [on_close] itself never raises. *)
Theorem X21_stream_leaves_connections_behind (w : world) (cfg : config)
  (channel : pystr -> pystr) (jmsgs : list wire) :
  let n := length (decodable w jmsgs) in
  exists s' : socket,
    MessageStreamHandler_on_close (frames w cfg channel jmsgs) = Ok s'
    /\ connected [] (ws_trace (frames w cfg channel jmsgs)) = seq 0 n
    /\ connected [] (ws_trace s') = seq 0 (n - 1).
Proof.
  cbv zeta. pose proof (frames_inv w cfg channel jmsgs) as (Hc & Hr & Ht & Hs).
  set (s := frames w cfg channel jmsgs) in *.
  set (n := length (decodable w jmsgs)) in *.
  unfold MessageStreamHandler_on_close. rewrite Hr.
  destruct n as [|k].
  - exists s. repeat split; assumption.
  - unfold subscribed.
    destruct (subscriptions s !! k) as [[|chan chans]|] eqn:Hk.
    + eexists. split; [reflexivity|]. split; [exact Ht|].
      cbn. rewrite connected_app, Ht. cbn [connected].
      rewrite filter_ne_seq. now rewrite Nat.sub_0_r.
    + destruct (Hs k _ Hk) as [_ (chan' & Heq & Hchan)].
      rewrite (Hchan eq_refl).
      eexists. split; [reflexivity|]. split; [exact Ht|].
      cbn. rewrite connected_app, Ht. cbn [connected].
      rewrite filter_ne_seq. now rewrite Nat.sub_0_r.
    + eexists. split; [reflexivity|]. split; [exact Ht|].
      cbn. rewrite connected_app, Ht. cbn [connected].
      rewrite filter_ne_seq. now rewrite Nat.sub_0_r.
Qed.

(** X22. [on_close] ends the subscription of the client it disconnects,
    and of that one only: a client that an earlier frame of the same
    connection subscribed keeps its subscription, and goes on listening,
    after the socket is closed. *)
Theorem X22_stream_leaves_subscriptions_behind (w : world) (cfg : config)
  (channel : pystr -> pystr) (jmsgs : list wire) :
  let s := frames w cfg channel jmsgs in
  exists s' : socket,
    MessageStreamHandler_on_close s = Ok s'
    /\ (forall c : nat, ws_r s = Some c -> subscribed c s' = false)
    /\ (forall c : nat, ws_r s <> Some c -> subscriptions s' !! c = subscriptions s !! c).
Proof.
  cbv zeta. pose proof (frames_inv w cfg channel jmsgs) as (Hc & Hr & Ht & Hs).
  set (s := frames w cfg channel jmsgs) in *.
  set (n := length (decodable w jmsgs)) in *.
  unfold MessageStreamHandler_on_close. rewrite Hr.
  destruct n as [|k].
  - exists s. split; [reflexivity|]. split; [intros c Habs; discriminate|reflexivity].
  - unfold subscribed at 1.
    destruct (subscriptions s !! k) as [[|chan chans]|] eqn:Hk.
    + eexists. split; [reflexivity|]. split.
      * intros c [= <-]. unfold subscribed, ws_log. cbn [subscriptions]. now rewrite Hk.
      * intros c Hne. reflexivity.
    + destruct (Hs k _ Hk) as [_ (chan' & Heq & Hchan)].
      injection Heq as -> ->. rewrite (Hchan eq_refl).
      eexists. split; [reflexivity|]. split.
      * intros c [= <-]. unfold subscribed. cbn [subscriptions].
        rewrite lookup_insert_eq. cbn [default id].
        now rewrite filter_cons_False, filter_nil by (intros H; now apply H).
      * intros c Hne. cbn [subscriptions]. apply lookup_insert_ne. congruence.
    + eexists. split; [reflexivity|]. split.
      * intros c [= <-]. unfold subscribed, ws_log. cbn [subscriptions]. now rewrite Hk.
      * intros c Hne. reflexivity.
Qed.
